(** * python_audio_ffmpeg: a shallow embedding of [python_audio_ffmpeg.py]

    The module wraps the command-line tool [ffmpeg]: it maps the element
    type of a numpy array to a raw PCM format tag, builds a command line,
    pipes the array's bytes through a subprocess and decodes what comes
    back.  The embedding follows the source line by line; the host
    (the operating system, the tool, numpy's element casts and Python's
    float printing) is a record of parameters. *)

From Stdlib Require Import ZArith List Ascii String DecimalString PrimFloat Lia.
From Stdlib.Strings Require Import Byte.
From Stdlib Require FloatOps FloatAxioms SpecFloat.
From stdpp Require Import gmap strings.
Import ListNotations.

Set Default Proof Using "Type".

(* ================================================================== *)
(** * Python values *)
(* ================================================================== *)

(** ** Element types ([numpy.dtype])

    The five types of the table of [get_format], the other native
    scalar types, the byte-swapped variants of the five multi-byte
    table types (which compare unequal to the native scalar types on
    the little-endian hosts the tags [..le] are written for), the
    unicode string type of a given width and the object type. *)
Inductive dtype : Type :=
| float64 | float32 | int16 | int32 | uint32
| float16 | int8 | int64 | uint8 | uint16 | uint64
| bool_ | complex64 | complex128
| float64_be | float32_be | int16_be | int32_be | uint32_be
| str_ (width : nat)
| object_.

#[global] Instance dtype_eq_dec : EqDecision dtype.
Proof. solve_decision. Defined.

(** [str(n)] for a Python [int], in full: the bound some interpreters put
    on the number of digits printed is not part of this model. *)
Definition Z_str (z : Z) : string := NilZero.string_of_int (Z.to_int z).
Definition nat_str (n : nat) : string := Z_str (Z.of_nat n).

(** [dtype.kind] *)
Definition kind (d : dtype) : ascii :=
  match d with
  | float64 | float32 | float16 | float64_be | float32_be => "f"
  | int16 | int32 | int8 | int64 | int16_be | int32_be => "i"
  | uint32 | uint8 | uint16 | uint64 | uint32_be => "u"
  | bool_ => "b"
  | complex64 | complex128 => "c"
  | str_ _ => "U"
  | object_ => "O"
  end%char.

(** [dtype.itemsize], in bytes. *)
Definition itemsize (d : dtype) : nat :=
  match d with
  | float64 | float64_be | int64 | uint64 | complex64 | object_ => 8
  | float32 | float32_be | int32 | int32_be | uint32 | uint32_be => 4
  | int16 | int16_be | uint16 | float16 => 2
  | int8 | uint8 | bool_ => 1
  | complex128 => 16
  | str_ n => 4 * n
  end.

(** [str(dtype)], as it is interpolated in the message of [get_format]. *)
Definition dtype_str (d : dtype) : string :=
  match d with
  | float64 => "float64" | float32 => "float32" | float16 => "float16"
  | int8 => "int8" | int16 => "int16" | int32 => "int32" | int64 => "int64"
  | uint8 => "uint8" | uint16 => "uint16" | uint32 => "uint32"
  | uint64 => "uint64"
  | bool_ => "bool" | complex64 => "complex64" | complex128 => "complex128"
  | float64_be => ">f8" | float32_be => ">f4"
  | int16_be => ">i2" | int32_be => ">i4" | uint32_be => ">u4"
  | str_ n => "<U" +:+ nat_str n
  | object_ => "object"
  end.

(** ** Numbers and dynamically typed arguments *)

(** Instances of [int]; [bool] is a subclass of [int]. *)
Inductive pyint : Type :=
| IInt (z : Z)
| IBool (b : bool).

Definition int_value (i : pyint) : Z :=
  match i with
  | IInt z => z
  | IBool b => if b then 1%Z else 0%Z
  end.

(** [str(i)] *)
Definition int_str (i : pyint) : string :=
  match i with
  | IInt z => Z_str z
  | IBool true => "True"
  | IBool false => "False"
  end.

(** The numbers passed where the signatures say [float]. *)
Inductive pynum : Type :=
| NInt (i : pyint)
| NFloat (f : float).

(** Object references. *)
Definition loc := positive.

(** An argument as the caller may pass it. [POther] stands for an object
    of any other class (a list, a scalar type such as [numpy.float32]
    itself, ...). *)
Inductive pyval : Type :=
| PNone
| PInt (i : pyint)
| PFloat (f : float)
| PStr (s : string)
| PDtype (d : dtype)
| PArray (l : loc)
| POther.

(** ** Exceptions and results *)

Inductive np_failure : Type :=
| BufferSize      (* fromstring: size not a multiple of the element size *)
| Reshape         (* reshape: size not divisible by the known dimension *)
| ItemType.       (* fromstring: object items, or items of size zero *)

Inductive exn : Type :=
| TypeError (msg : string)
| RuntimeError (msg : string)
| ValueError (why : np_failure)
| NameError (name : string)
| UnicodeDecodeError.

(** The outcome of a call: a value, an exception, or a call that never
    returns (waiting without a timeout for a process that does not end). *)
Inductive res (A : Type) : Type :=
| Ok (a : A)
| Raise (e : exn)
| Blocks.
Arguments Ok {A} a.
Arguments Raise {A} e.
Arguments Blocks {A}.

(* ================================================================== *)
(** * get_format (lines 15-25) *)
(* ================================================================== *)

Definition format_strings : list (dtype * string) :=
  [ (float64, "f64le");
    (float32, "f32le");
    (int16, "s16le");
    (int32, "s32le");
    (uint32, "u32le") ].

(** The [for] loop over the table: the first entry whose type equals
    [in_type] wins. *)
Fixpoint find_format (table : list (dtype * string)) (in_type : dtype)
  : option string :=
  match table with
  | [] => None
  | (dt, string) :: table' =>
      if decide (in_type = dt) then Some string
      else find_format table' in_type
  end.

Definition get_format (in_type : dtype) : res string :=
  match find_format format_strings in_type with
  | Some string => Ok string
  | None => Raise (RuntimeError ("Not supported type: " +:+ dtype_str in_type))
  end.

(** The element types of the table. *)
Definition supported (d : dtype) : Prop :=
  d = float64 \/ d = float32 \/ d = int16 \/ d = int32 \/ d = uint32.

(* ================================================================== *)
(** * Bytes and text *)
(* ================================================================== *)

Definition bytes := list byte.

Definition byte_value (b : byte) : Z := Z.of_N (Byte.to_N b).

Definition byte_of_Z (z : Z) : byte :=
  default x00 (Byte.of_N (Z.to_N (z mod 256)%Z)).

(** An array element is kept as the bit pattern of its item, read as a
    little-endian unsigned number: [le_bytes k z] are its [k] bytes in
    memory and [le_value] reads them back. *)
Definition le_bytes (k : nat) (z : Z) : bytes :=
  map (fun i => byte_of_Z (Z.shiftr z (8 * Z.of_nat i))) (seq 0 k).

Definition le_value (bs : bytes) : Z :=
  fold_right (fun b acc => (byte_value b + 256 * acc)%Z) 0%Z bs.

(** ** [bytes.decode('utf-8')]

    A Python [str] is kept as its UTF-8 encoding, so decoding succeeds
    with the same bytes exactly when they are well-formed UTF-8 (no
    overlong forms, no surrogates, nothing above U+10FFFF) and raises
    [UnicodeDecodeError] otherwise. *)
Module Utf8.

Definition between (lo hi b : N) : bool := (lo <=? b)%N && (b <=? hi)%N.

Definition cont (b : N) : bool := between 128 191 b.

Fixpoint well_formed (bs : list N) : bool :=
  match bs with
  | [] => true
  | b0 :: bs1 =>
      if (b0 <=? 127)%N then well_formed bs1
      else match bs1 with
      | [] => false
      | b1 :: bs2 =>
          if between 194 223 b0 then cont b1 && well_formed bs2
          else match bs2 with
          | [] => false
          | b2 :: bs3 =>
              if between 224 239 b0 then
                (if (b0 =? 224)%N then between 160 191 b1
                 else if (b0 =? 237)%N then between 128 159 b1
                 else cont b1)
                && cont b2 && well_formed bs3
              else match bs3 with
              | [] => false
              | b3 :: bs4 =>
                  between 240 244 b0
                  && (if (b0 =? 240)%N then between 144 191 b1
                      else if (b0 =? 244)%N then between 128 143 b1
                      else cont b1)
                  && cont b2 && cont b3 && well_formed bs4
              end
          end
      end
  end.

Definition decode (bs : bytes) : option string :=
  if well_formed (map Byte.to_N bs) then Some (string_of_list_byte bs)
  else None.

End Utf8.

(** [sep.join(words)] *)
Definition join (sep : string) (words : list string) : string :=
  String.concat sep words.

(** A double-quoted word, as in the messages of the argument checks. *)
Definition quoted (s : string) : string :=
  String "034" (s +:+ String "034" EmptyString).

(** [s in m] for strings, and its specification. *)
Fixpoint contains (s m : string) : bool :=
  String.prefix s m ||
  match m with
  | EmptyString => false
  | String _ m' => contains s m'
  end.

Definition embeds (s m : string) : Prop :=
  exists before after : string, m = before +:+ s +:+ after.

(* ================================================================== *)
(** * Arrays, the object store and the trace of effects *)
(* ================================================================== *)

(** A [numpy.ndarray]: element type, shape and the elements in row-major
    (C) order, each as the bit pattern of its item. *)
Record ndarray : Type := Ndarray {
  arr_dtype : dtype;
  arr_shape : list nat;
  arr_data : list Z
}.

(** [ndarray.size] *)
Definition size (a : ndarray) : nat := fold_right Nat.mul 1 (arr_shape a).

Abbreviation heap := (gmap loc ndarray).

(** What the subprocess does with a command line, the bytes on its
    standard input and the timeout it is given. [Exits] carries what
    [Popen.communicate] returns for the output stream ([None] when there
    is no such stream) together with what the process wrote on its
    diagnostic stream; [Overruns] is a process still running when the
    timeout elapses (or for ever, without a timeout), with what is read
    from both streams once it has been killed. *)
Inductive behaviour : Type :=
| Exits (returncode : Z) (stdout : option bytes) (stderr : bytes)
| Overruns (stdout stderr : bytes).

(** What the code takes from outside this module. *)
Record host : Type := Host {
  which_ffmpeg : bool;                    (* shutil.which('ffmpeg') is not None *)
  linesep : string;                       (* os.linesep *)
  float_str : float -> string;            (* str() of a float *)
  convert : dtype -> dtype -> Z -> Z;     (* numpy's cast of one element *)
  str_width : dtype -> nat;               (* width numpy picks for an unsized string type *)
  ffmpeg : list string -> bytes -> option pynum -> behaviour
}.

(** The observable effects of a call, in order. *)
Inductive event : Type :=
| Spawn (command : list string) (capture_stderr : bool)  (* subprocess.Popen *)
| Print (line : string)                                  (* print(..., file=sys.stderr) *)
| Communicate (input : bytes) (timeout : option pynum)   (* p.communicate(input, timeout) *)
| Kill                                                   (* p.kill() *)
| Drain.                                                 (* p.communicate() after the kill *)

(** ** The monad: a store of array objects, a trace, a result *)

Record run (A : Type) : Type := Run {
  value : res A;
  store : heap;
  trace : list event
}.
Arguments Run {A} value store trace.
Arguments value {A} r.
Arguments store {A} r.
Arguments trace {A} r.

Definition M (A : Type) : Type := heap -> run A.

Definition ret {A} (a : A) : M A := fun h => Run (Ok a) h [].

Definition bind {A B} (m : M A) (k : A -> M B) : M B :=
  fun h =>
    let r := m h in
    match value r with
    | Ok a =>
        let r' := k a (store r) in
        Run (value r') (store r') (trace r ++ trace r')
    | Raise e => Run (Raise e) (store r) (trace r)
    | Blocks => Run Blocks (store r) (trace r)
    end.

Notation "'let*' x ':=' m 'in' k" := (bind m (fun x => k))
  (at level 10, x name, m at level 100, k at level 200).
Notation "'do' m 'then' k" := (bind m (fun _ => k))
  (at level 10, m at level 100, k at level 200).

Definition raise {A} (e : exn) : M A := fun h => Run (Raise e) h [].
Definition block {A} : M A := fun h => Run Blocks h [].
Definition emit (ev : event) : M unit := fun h => Run (Ok tt) h [ev].

Definition lift {A} (r : res A) : M A := fun h => Run r h [].

(** A new array object. *)
Definition new (a : ndarray) : M loc :=
  fun h => let l := fresh (dom h) in Run (Ok l) (<[l := a]> h) [].

(** The array an argument refers to, if it is one: [isinstance(v,
    numpy.ndarray)] holds for a reference to a live array object only. *)
Definition deref (v : pyval) : M (option ndarray) :=
  fun h => Run (Ok (match v with PArray l => h !! l | _ => None end)) h [].

(** A computation that only adds objects to the store. *)
Definition grows {A} (m : M A) : Prop := forall h : heap, h ⊆ store (m h).

(* ================================================================== *)
(** * The numpy operations the module calls *)
(* ================================================================== *)

(** [array.tobytes()]: a copy of the items, in order. *)
Definition tobytes (a : ndarray) : bytes :=
  flat_map (le_bytes (itemsize (arr_dtype a))) (arr_data a).

(** [numpy.fromstring(s, dtype=d)]: a new one-dimensional array of
    [len(s) / itemsize] items copied from [s]. It refuses an element type
    whose items are object references or have size zero, and a length
    that is not a multiple of the item size, each with [ValueError]. *)
Definition fromstring (s : bytes) (d : dtype) : res ndarray :=
  let k := itemsize d in
  if bool_decide (d = object_) || (k =? 0) then Raise (ValueError ItemType)
  else if negb (length s mod k =? 0) then Raise (ValueError BufferSize)
  else
    let count := length s / k in
    Ok (Ndarray d [count]
          (map (fun i => le_value (firstn k (skipn (i * k) s))) (seq 0 count))).

(** [a.astype(d)]: a new array of the same shape with every element
    cast. An unsized string type takes the width numpy picks for the
    source type. *)
Definition astype (hst : host) (a : ndarray) (d : dtype) : ndarray :=
  let d' := match d with
            | str_ 0 => str_ (str_width hst (arr_dtype a))
            | _ => d
            end in
  Ndarray d' (arr_shape a) (map (convert hst (arr_dtype a) d') (arr_data a)).

(** [a.reshape((-1, n))]: the same items in the same order as rows of
    [n]; [ValueError] when the row length does not divide the size. *)
Definition reshape_rows (a : ndarray) (n : nat) : res ndarray :=
  if (n =? 0) || negb (size a mod n =? 0) then Raise (ValueError Reshape)
  else Ok (Ndarray (arr_dtype a) [size a / n; n] (arr_data a)).

(** All the indices of an array of shape [s], in row-major order, and the
    position of the item at an index. *)
Fixpoint indices (s : list nat) : list (list nat) :=
  match s with
  | [] => [[]]
  | n :: s' => flat_map (fun i => map (cons i) (indices s')) (seq 0 n)
  end.

Definition offset (s idx : list nat) : nat :=
  fold_left (fun acc ni => acc * fst ni + snd ni) (combine s idx) 0.


(** [a.transpose()]: the axes reversed; the item at an index is the item
    of [a] at the reversed index. *)
Definition transpose (a : ndarray) : ndarray :=
  Ndarray (arr_dtype a) (rev (arr_shape a))
    (map (fun idx => nth (offset (arr_shape a) (rev idx)) (arr_data a) 0%Z)
       (indices (rev (arr_shape a)))).

(* ================================================================== *)
(** * audio_ffmpeg (lines 28-130) *)
(* ================================================================== *)

(** The arguments once they have passed the checks of lines 50-76. *)
Record checked : Type := Checked {
  c_array : ndarray;
  c_nchannel : pyint;
  c_sampling_rate : pyint;
  c_before : list string;
  c_after : list string;
  c_verbose : bool;
  c_out_type : dtype;
  c_format : string
}.

Definition as_str (v : pyval) : option string :=
  match v with PStr s => Some s | _ => None end.

(** Lines 59-62 and 63-66: [None] is the empty list, every option must
    be a [str]. *)
Definition check_options (options : option (list pyval)) : M (list string) :=
  let options := default [] options in
  if forallb (fun opt => bool_decide (is_Some (as_str opt))) options
  then ret (omap as_str options)
  else raise (TypeError ("Argument " +:+ quoted "options" +:+
                         " must be a sequence of str")).

(** Lines 50-76, in the order of the source. *)
Definition check_args (hst : host)
    (array nchannel sampling_rate : pyval)
    (before_input_options after_input_options : option (list pyval))
    (out_type verbose : pyval) : M checked :=
  if negb (which_ffmpeg hst)
  then raise (RuntimeError "command not found: ffmpeg. Please install")
  else
  let* arr := deref array in
  match arr with
  | None =>
      raise (TypeError ("Argument " +:+ quoted "array" +:+ " must be numpy.ndarray"))
  | Some arr =>
  match nchannel with
  | PInt nch =>
  match sampling_rate with
  | PInt rate =>
  let* after := check_options after_input_options in
  let* before := check_options before_input_options in
  match verbose with
  | PInt (IBool vb) =>
  let* out :=
    match out_type with
    | PNone => ret (arr_dtype arr)              (* lines 69-70 *)
    | PStr _ => ret (str_ 0)                    (* lines 71-72: numpy.dtype(str) *)
    | PDtype d => ret d
    | _ => raise (TypeError ("Argument " +:+ quoted "out_type" +:+
                             " must be numpy.dtype or str"))
    end in
  let* format_string := lift (get_format (arr_dtype arr)) in   (* line 76 *)
  ret (Checked arr nch rate before after vb out format_string)
  | _ => raise (TypeError ("Argument " +:+ quoted "verbose" +:+ " must be bool"))
  end
  | _ => raise (TypeError ("Argument " +:+ quoted "sampling_rate" +:+ " must be int"))
  end
  | _ => raise (TypeError ("Argument " +:+ quoted "nchannel" +:+ " must be int"))
  end
  end.

(** Lines 77-80. *)
Definition build_command (format_string : string) (sampling_rate nchannel : pyint)
    (before_input_options after_input_options : list string) : list string :=
  ["ffmpeg";
   "-f"; format_string; "-ar"; int_str sampling_rate; "-ac"; int_str nchannel] ++
  before_input_options ++ ["-i"; "pipe:0"] ++ after_input_options ++
  ["-f"; format_string; "-ar"; int_str sampling_rate; "-ac"; int_str nchannel; "-"].

Definition command_of (c : checked) : list string :=
  build_command (c_format c) (c_sampling_rate c) (c_nchannel c)
    (c_before c) (c_after c).

(** [str(x)] of a number, as an f-string interpolates it. *)
Definition num_str (hst : host) (x : pynum) : string :=
  match x with
  | NInt i => int_str i
  | NFloat f => float_str hst f
  end.

(** [stderr_bytes.decode('utf-8')] *)
Definition decode_stderr (stderr : bytes) : M string :=
  match Utf8.decode stderr with
  | Some text => ret text
  | None => raise UnicodeDecodeError
  end.

(** Lines 81-112: the subprocess, its timeout and the classification of
    how it ended. Returns [stdout_bytes]. [Popen] is taken to start the
    process (the tool was found at line 50), and the timeout is [None] or
    a number, as the signature says. *)
Definition run_ffmpeg (hst : host) (c : checked) (timeout : option pynum)
  : M bytes :=
  let command := command_of c in
  let verbose := c_verbose c in
  do emit (Spawn command (negb verbose)) then
  do (if verbose then emit (Print (join " " command)) else ret tt) then
  let input := tobytes (c_array c) in
  do emit (Communicate input timeout) then
  match ffmpeg hst command input timeout with
  | Overruns _ stderr =>
      match timeout with
      | None => block
      | Some t =>                                        (* lines 93-105 *)
          do emit Kill then
          do emit Drain then
          let* mes :=
            if verbose then
              ret (join ("TimeoutExpired: " +:+ num_str hst t +:+ "[s]. " +:+ " ")
                     command)
            else
              let* text := decode_stderr stderr in
              ret ("TimeoutExpired: " +:+ num_str hst t +:+ "[s]. " +:+
                   join " " command +:+ linesep hst +:+ text)
          in raise (RuntimeError mes)
      end
  | Exits returncode stdout stderr =>
      match (returncode =? 0)%Z, stdout with
      | true, Some stdout_bytes => ret stdout_bytes
      | _, _ =>                                          (* lines 107-112 *)
          let* mes :=
            if verbose then ret (join " " command)
            else
              let* text := decode_stderr stderr in
              ret (join " " command +:+ linesep hst +:+ text)
          in raise (RuntimeError mes)
      end
  end.

(** What is done to the subprocess once it has been started. *)
Definition after_spawn (hst : host) (c : checked) (timeout : option pynum)
  : list event :=
  (if c_verbose c then [Print (join " " (command_of c))] else []) ++
  Communicate (tobytes (c_array c)) timeout ::
  match ffmpeg hst (command_of c) (tobytes (c_array c)) timeout, timeout with
  | Overruns _ _, Some _ => [Kill; Drain]
  | _, _ => []
  end.

(** Lines 114-130. Evaluating [normalize] at line 123 raises [NameError]:
    the name is bound neither in the function nor in the module. *)
Definition decode_result (hst : host) (c : checked) (stdout_bytes : bytes)
  : M loc :=
  let* decoded := lift (fromstring stdout_bytes (arr_dtype (c_array c))) in
  do new decoded then
  let audio := astype hst decoded (c_out_type c) in
  let* l := new audio in
  let* la :=
    if (1 <? int_value (c_nchannel c))%Z then                 (* lines 116-117 *)
      let* rows := lift (reshape_rows audio (Z.to_nat (int_value (c_nchannel c)))) in
      do new rows then
      let audio := transpose rows in
      let* l := new audio in ret (l, audio)
    else ret (l, audio) in
  let (l, audio) := la : loc * ndarray in
  if size audio =? 0 then ret l                               (* lines 119-120 *)
  else if bool_decide (kind (c_out_type c) = "f"%char)        (* line 122 *)
  then raise (NameError "normalize")                          (* line 123 *)
  else ret l.                                                 (* line 130 *)

(** Lines 28-130. The two option arguments are [None] or a list of any
    values and the timeout is [None] or a number, as the signature says;
    every other argument is any value. *)
Definition audio_ffmpeg (hst : host)
    (array nchannel sampling_rate : pyval)
    (before_input_options after_input_options : option (list pyval))
    (out_type verbose : pyval) (timeout : option pynum) : M loc :=
  let* c := check_args hst array nchannel sampling_rate
              before_input_options after_input_options out_type verbose in
  let* stdout_bytes := run_ffmpeg hst c timeout in
  decode_result hst c stdout_bytes.

(* ================================================================== *)
(** * audio_atempo (lines 133-164) and audio_trim (lines 167-196) *)
(* ================================================================== *)

(** The numbers that are 1.0: the float, the integer 1 and [True]. *)
Definition unit_tempo (x : pynum) : Prop :=
  x = NFloat 1%float \/ x = NInt (IInt 1) \/ x = NInt (IBool true).

(** The numbers above zero. *)
Definition positive_tempo (x : pynum) : Prop :=
  match x with
  | NInt i => (0 < int_value i)%Z
  | NFloat f => PrimFloat.ltb 0%float f = true
  end.

(** [x == 1.0] *)
Definition is_one (x : pynum) : bool :=
  match x with
  | NInt i => (int_value i =? 1)%Z
  | NFloat f => PrimFloat.eqb f 1%float
  end.

Definition atempo_options (hst : host) (tempo : pynum) : list string :=
  if is_one tempo then []
  else ["-af"; "atempo=" +:+ num_str hst tempo].

(** The tokens of a command line that belong to a tempo filter: the flag
    [-af] and the filter expressions [atempo=...]. *)
Definition tempo_tokens (command : list string) : list string :=
  List.filter (fun s => String.eqb s "-af" || String.prefix "atempo=" s) command.

Definition audio_atempo (hst : host) (array : pyval) (tempo : pynum)
    (nchannel sampling_rate out_type verbose : pyval)
    (timeout : option pynum) : M loc :=
  audio_ffmpeg hst array nchannel sampling_rate
    None (Some (map PStr (atempo_options hst tempo)))
    out_type verbose timeout.

Definition trim_options (hst : host) (time_offset duration : pynum) : list string :=
  ["-ss"; num_str hst time_offset; "-t"; num_str hst duration].

Definition audio_trim (hst : host) (array : pyval) (time_offset duration : pynum)
    (nchannel sampling_rate out_type verbose : pyval)
    (timeout : option pynum) : M loc :=
  audio_ffmpeg hst array nchannel sampling_rate
    None (Some (map PStr (trim_options hst time_offset duration)))
    out_type verbose timeout.

(* ================================================================== *)
(** * The caller's objects *)
(* ================================================================== *)

(** A call that started in store [h] and ended as [r] has left every
    object of [h] as it was (element type, shape and items), and what it
    returns, if anything, is an object that was not in [h]. *)
Definition leaves_objects_alone (h : heap) (r : run loc) : Prop :=
  (forall l a, h !! l = Some a -> store r !! l = Some a) /\
  (forall l', value r = Ok l' -> h !! l' = None /\ is_Some (store r !! l')).

(* ================================================================== *)
(** * Arrays as numpy keeps them *)
(* ================================================================== *)

(** An item fits the item size of its type: its bit pattern is below
    [2 ^ (8 * itemsize)]. Every array numpy builds is so. *)
Definition fits (d : dtype) (z : Z) : Prop :=
  (0 <= z < 2 ^ (8 * Z.of_nat (itemsize d)))%Z.

Definition items_fit (a : ndarray) : Prop :=
  Forall (fits (arr_dtype a)) (arr_data a).

(** The letter that starts the raw-format tag of a kind of element. *)
Definition tag_letter (d : dtype) : string :=
  if bool_decide (kind d = "f"%char) then "f"
  else if bool_decide (kind d = "i"%char) then "s"
  else "u".

(* ================================================================== *)
(** * Hosts and stores used as concrete inputs *)
(* ================================================================== *)

(** Python's [str] on the floats the examples pass. *)
Definition sample_float_str (f : float) : string :=
  if PrimFloat.eqb f 2%float then "2.0"
  else if PrimFloat.eqb f 0.5%float then "0.5"
  else if PrimFloat.eqb f 1%float then "1.0"
  else "nan".

(** A POSIX host on which the tool ends as [b] whatever it is given. Its
    casts keep the bit pattern of an item, as numpy's do between the
    integer types for the small non-negative values of the examples. *)
Definition host_with (b : behaviour) : host :=
  Host true (String "010" EmptyString) sample_float_str
       (fun _ _ z => z) (fun _ => 32)
       (fun _ _ _ => b).

(** The same host with a tool that copies its input to its output and
    exits with status 0. *)
Definition echo_host : host :=
  Host true (String "010" EmptyString) sample_float_str
       (fun _ _ z => z) (fun _ => 32)
       (fun _ input _ => Exits 0 (Some input) []).

(** A host on which the tool is not installed. *)
Definition bare_host : host :=
  Host false (String "010" EmptyString) sample_float_str
       (fun _ _ z => z) (fun _ => 32)
       (fun _ input _ => Exits 0 (Some input) []).

(** A store holding one array at location 1. *)
Definition store_of (a : ndarray) : heap := <[1%positive := a]> ∅.

(** [numpy.zeros(n, dtype=d)] *)
Definition zeros (n : nat) (d : dtype) : ndarray :=
  Ndarray d [n] (repeat 0%Z n).

(** The default arguments of the signatures. *)
Definition mono : pyval := PInt (IInt 1).
Definition rate_16k : pyval := PInt (IInt 16000).
Definition quiet : pyval := PInt (IBool false).

(* ================================================================== *)
(** * Facts about [get_format] *)
(* ================================================================== *)

Lemma get_format_unsupported (d : dtype) :
  ~ supported d ->
  get_format d = Raise (RuntimeError ("Not supported type: " +:+ dtype_str d)).
Proof.
  intros Hd. unfold get_format, format_strings, find_format.
  repeat case_decide; subst; try reflexivity;
    exfalso; apply Hd; unfold supported; tauto.
Qed.

(** C1: the format mapper returns the documented tag for each of the five
    supported element types, and fails with the unsupported-type error
    (a RuntimeError naming the type) for every other element type. Being a
    function from [dtype] to [res string], with no store and no trace, it
    is pure and deterministic. *)
Theorem get_format_table :
  get_format float64 = Ok "f64le" /\
  get_format float32 = Ok "f32le" /\
  get_format int16 = Ok "s16le" /\
  get_format int32 = Ok "s32le" /\
  get_format uint32 = Ok "u32le" /\
  (forall d : dtype, ~ supported d ->
     get_format d = Raise (RuntimeError ("Not supported type: " +:+ dtype_str d))).
Proof.
  repeat split; try reflexivity. exact get_format_unsupported.
Qed.

(* ================================================================== *)
(** * Text *)
(* ================================================================== *)

Lemma prefix_append (s t : string) : String.prefix s (s +:+ t) = true.
Proof.
  induction s as [|c s IH]; simpl.
  - now destruct t.
  - destruct (ascii_dec c c) as [_|Hc]; [exact IH | now destruct Hc].
Qed.

Lemma contains_prefix (s m : string) :
  String.prefix s m = true -> contains s m = true.
Proof. intros H. destruct m; unfold contains; fold contains; now rewrite H. Qed.

Lemma contains_append (s before after : string) :
  contains s (before +:+ s +:+ after) = true.
Proof.
  induction before as [|c before IH].
  - change (contains s (s +:+ after) = true).
    apply contains_prefix, prefix_append.
  - change (contains s (String c (before +:+ s +:+ after)) = true).
    unfold contains; fold contains. rewrite IH. apply orb_true_r.
Qed.

Lemma embeds_contains (s m : string) : embeds s m -> contains s m = true.
Proof. intros (before & after & ->). apply contains_append. Qed.

Lemma embeds_here (s before after : string) : embeds s (before +:+ s +:+ after).
Proof. now exists before, after. Qed.

Lemma append_assoc (a b c : string) : (a +:+ b) +:+ c = a +:+ b +:+ c.
Proof.
  induction a as [|x a IH]; [reflexivity|].
  change (String x ((a +:+ b) +:+ c) = String x (a +:+ b +:+ c)).
  now rewrite IH.
Qed.

(* ================================================================== *)
(** * The monad *)
(* ================================================================== *)

Lemma bind_ok {A B} (m : M A) (k : A -> M B) h a h1 t1 :
  m h = Run (Ok a) h1 t1 ->
  bind m k h = Run (value (k a h1)) (store (k a h1)) (t1 ++ trace (k a h1)).
Proof. intros E. unfold bind. now rewrite E. Qed.

Lemma bind_raise {A B} (m : M A) (k : A -> M B) h e h1 t1 :
  m h = Run (Raise e) h1 t1 -> bind m k h = Run (Raise e) h1 t1.
Proof. intros E. unfold bind. now rewrite E. Qed.

Lemma run_eta {A} (r : run A) : Run (value r) (store r) (trace r) = r.
Proof. now destruct r. Qed.

Lemma bind_ret {A B} (a : A) (k : A -> M B) (h : heap) :
  bind (ret a) k h = k a h.
Proof. unfold bind, ret. cbn [value store trace app]. apply run_eta. Qed.

Lemma bind_lift {A B} (r : res A) (k : A -> M B) (h : heap) :
  bind (lift r) k h =
  match r with
  | Ok a => k a h
  | Raise e => Run (Raise e) h []
  | Blocks => Run Blocks h []
  end.
Proof.
  unfold bind, lift.
  destruct r; cbn [value store trace app]; [apply run_eta | reflexivity..].
Qed.

Lemma bind_new {B} (a : ndarray) (k : loc -> M B) (h : heap) :
  bind (new a) k h = k (fresh (dom h)) (<[fresh (dom h) := a]> h).
Proof. unfold bind, new. cbn [value store trace app]. apply run_eta. Qed.

Lemma bind_emit {B} (ev : event) (k : unit -> M B) (h : heap) :
  bind (emit ev) k h
  = Run (value (k tt h)) (store (k tt h)) (ev :: trace (k tt h)).
Proof. reflexivity. Qed.

Lemma bind_raise_now {A B} (e : exn) (k : A -> M B) (h : heap) :
  bind (raise e) k h = Run (Raise e) h [].
Proof. reflexivity. Qed.

Lemma bind_assoc {A B C} (m : M A) (f : A -> M B) (g : B -> M C) (h : heap) :
  bind (bind m f) g h = bind m (fun a => bind (f a) g) h.
Proof.
  unfold bind. destruct (m h) as [[a|e|] s t]; cbn [value store trace];
    [|reflexivity..].
  destruct (f a s) as [[b|e|] s' t']; cbn [value store trace];
    [|reflexivity..].
  now rewrite app_assoc.
Qed.

Lemma grows_ret {A} (a : A) : grows (ret a).
Proof. intros h. reflexivity. Qed.

Lemma grows_raise {A} (e : exn) : grows (@raise A e).
Proof. intros h. reflexivity. Qed.

Lemma grows_block {A} : grows (@block A).
Proof. intros h. reflexivity. Qed.

Lemma grows_emit (ev : event) : grows (emit ev).
Proof. intros h. reflexivity. Qed.

Lemma grows_lift {A} (r : res A) : grows (lift r).
Proof. intros h. reflexivity. Qed.

Lemma grows_deref (v : pyval) : grows (deref v).
Proof. intros h. reflexivity. Qed.

Lemma new_fresh (a : ndarray) (h : heap) : h !! fresh (dom h) = None.
Proof. apply not_elem_of_dom, is_fresh. Qed.

Lemma grows_new (a : ndarray) : grows (new a).
Proof. intros h. simpl. apply insert_subseteq, (new_fresh a). Qed.

Lemma grows_bind {A B} (m : M A) (k : A -> M B) :
  grows m -> (forall a, grows (k a)) -> grows (bind m k).
Proof.
  intros Hm Hk h. unfold bind.
  destruct (value (m h)) eqn:E; simpl; try apply Hm.
  etransitivity; [apply Hm | apply Hk].
Qed.

Create HintDb grows.

#[local] Hint Resolve grows_ret grows_raise grows_block grows_emit grows_lift
  grows_deref grows_new : grows.

Ltac grows_step :=
  first [ apply grows_bind; [| intros ?]
        | solve [auto with grows]
        | match goal with
          | |- grows (match ?x with _ => _ end) => destruct x
          | |- grows (if ?b then _ else _) => destruct b
          | |- grows (let (_, _) := ?p in _) => destruct p
          end ].

(* ================================================================== *)
(** * The argument checks (lines 50-76) *)
(* ================================================================== *)

Lemma omap_as_str (opts : list string) : omap as_str (map PStr opts) = opts.
Proof. induction opts as [|o opts IH]; simpl; [reflexivity | f_equal; exact IH]. Qed.

Lemma all_str (opts : list string) :
  forallb (fun opt => bool_decide (is_Some (as_str opt))) (map PStr opts) = true.
Proof. induction opts as [|o opts IH]; simpl; [reflexivity | exact IH]. Qed.

Lemma all_str_inv (options : list pyval) :
  forallb (fun opt => bool_decide (is_Some (as_str opt))) options = true ->
  options = map PStr (omap as_str options).
Proof.
  induction options as [|o options IH]; simpl; [reflexivity|].
  intros [Ho Hs]%andb_prop. destruct o; try discriminate Ho.
  simpl. f_equal. now apply IH.
Qed.

Lemma check_options_strs (opts : option (list string)) (h : heap) :
  check_options (map PStr <$> opts) h = Run (Ok (default [] opts)) h [].
Proof.
  unfold check_options. destruct opts as [opts|]; simpl.
  - now rewrite all_str, omap_as_str.
  - reflexivity.
Qed.

Lemma check_options_ok (options : option (list pyval)) (h : heap) opts :
  value (check_options options h) = Ok opts ->
  default [] options = map PStr opts /\ check_options options h = Run (Ok opts) h [].
Proof.
  unfold check_options.
  destruct (forallb _ _) eqn:E; simpl; [|discriminate].
  intros [= <-]. split; [now apply all_str_inv | reflexivity].
Qed.

Lemma check_options_cases (options : option (list pyval)) (h : heap) :
  (exists opts, check_options options h = Run (Ok opts) h []) \/
  (exists msg, check_options options h = Run (Raise (TypeError msg)) h []).
Proof.
  unfold check_options. destruct (forallb _ _); [left | right]; eexists; reflexivity.
Qed.

(** The checks neither touch the store nor have an effect, and they end
    with the checked arguments or with an exception. *)
Lemma check_args_run hst array nchannel sampling_rate before after out_type
    verbose (h : heap) :
  exists v,
    check_args hst array nchannel sampling_rate before after out_type
      verbose h = Run v h [] /\
    ((exists c, v = Ok c) \/ (exists e, v = Raise e)).
Proof.
  pose (stop := fun (e : exn) =>
          ex_intro (fun v => Run (Raise e) h [] = Run v h [] /\
                             ((exists c : checked, v = Ok c) \/
                              (exists e', v = Raise e')))
            (Raise e) (conj eq_refl (or_intror (ex_intro _ e eq_refl)))).
  unfold check_args.
  destruct (which_ffmpeg hst); [|apply stop].
  unfold bind at 1; simpl.
  destruct (match array with PArray l => h !! l | _ => None end) as [arr|];
    [|apply stop].
  destruct nchannel as [|nch| | | | |]; try apply stop.
  destruct sampling_rate as [|rate| | | | |]; try apply stop.
  destruct (check_options_cases after h) as [[o1 E1]|[m1 E1]];
    [rewrite (bind_ok _ _ _ _ _ _ E1)
    |rewrite (bind_raise _ _ _ _ _ _ E1); apply stop].
  destruct (check_options_cases before h) as [[o2 E2]|[m2 E2]];
    [rewrite (bind_ok _ _ _ _ _ _ E2)
    |rewrite (bind_raise _ _ _ _ _ _ E2); apply stop].
  destruct verbose as [|[|vb]| | | | |]; try apply stop.
  destruct out_type; simpl; try apply stop;
    unfold bind, lift, ret, raise; simpl;
    (destruct (get_format (arr_dtype arr)) as [fmt|e|] eqn:Ef; simpl;
     [eexists; split; [reflexivity | left; eexists; reflexivity]
     |apply stop |]);
    unfold get_format in Ef; destruct (find_format _ _); discriminate.
Qed.

Lemma check_args_cases hst array nchannel sampling_rate before after out_type
    verbose (h : heap) :
  (exists c, check_args hst array nchannel sampling_rate before after out_type
               verbose h = Run (Ok c) h []) \/
  (exists e, check_args hst array nchannel sampling_rate before after out_type
               verbose h = Run (Raise e) h []).
Proof.
  destruct (check_args_run hst array nchannel sampling_rate before after
              out_type verbose h) as (v & E & [[c ->]|[e ->]]); eauto.
Qed.

(** What a successful check says about the arguments. *)
Lemma check_args_inv hst array nchannel sampling_rate before after out_type
    verbose (h : heap) (c : checked) :
  value (check_args hst array nchannel sampling_rate before after out_type
           verbose h) = Ok c ->
  which_ffmpeg hst = true /\
  (exists l, array = PArray l /\ h !! l = Some (c_array c)) /\
  nchannel = PInt (c_nchannel c) /\
  sampling_rate = PInt (c_sampling_rate c) /\
  default [] before = map PStr (c_before c) /\
  default [] after = map PStr (c_after c) /\
  verbose = PInt (IBool (c_verbose c)) /\
  (out_type = PNone /\ c_out_type c = arr_dtype (c_array c) \/
   (exists s, out_type = PStr s) /\ c_out_type c = str_ 0 \/
   out_type = PDtype (c_out_type c)) /\
  get_format (arr_dtype (c_array c)) = Ok (c_format c).
Proof.
  unfold check_args.
  destruct (which_ffmpeg hst); [|discriminate].
  unfold bind at 1; simpl.
  destruct array as [| | | | |l|]; try discriminate.
  destruct (h !! l) as [arr|] eqn:El; [|discriminate].
  destruct nchannel as [|nch| | | | |]; try discriminate.
  destruct sampling_rate as [|rate| | | | |]; try discriminate.
  destruct (check_options_cases after h) as [[o1 E1]|[m1 E1]];
    [rewrite (bind_ok _ _ _ _ _ _ E1) | rewrite (bind_raise _ _ _ _ _ _ E1); discriminate].
  destruct (check_options_cases before h) as [[o2 E2]|[m2 E2]];
    [rewrite (bind_ok _ _ _ _ _ _ E2) | rewrite (bind_raise _ _ _ _ _ _ E2); discriminate].
  apply (f_equal value), check_options_ok in E1, E2.
  destruct E1 as [E1 _], E2 as [E2 _].
  destruct verbose as [|[|vb]| | | | |]; try discriminate.
  destruct out_type; simpl; try discriminate;
    unfold bind, lift, ret; simpl;
    destruct (get_format (arr_dtype arr)) eqn:Ef; simpl; try discriminate;
    intros [= <-]; simpl; repeat split; eauto 6.
Qed.

(** The checks pass on arguments of the documented classes whose array
    has an element type of the table. *)
Lemma check_args_typed hst l a nch rate (before after : option (list string))
    out_type vb (h : heap) fmt d :
  which_ffmpeg hst = true ->
  h !! l = Some a ->
  get_format (arr_dtype a) = Ok fmt ->
  (out_type = PNone /\ d = arr_dtype a \/
   (exists s, out_type = PStr s) /\ d = str_ 0 \/
   out_type = PDtype d) ->
  check_args hst (PArray l) (PInt nch) (PInt rate)
    (map PStr <$> before) (map PStr <$> after) out_type (PInt (IBool vb)) h
  = Run (Ok (Checked a nch rate (default [] before) (default [] after) vb d fmt))
        h [].
Proof.
  intros Hw Hl Hf Hout. unfold check_args. rewrite Hw. simpl.
  unfold bind at 1; simpl. rewrite Hl.
  rewrite (bind_ok _ _ _ _ _ _ (check_options_strs after h)).
  rewrite (bind_ok _ _ _ _ _ _ (check_options_strs before h)).
  destruct Hout as [[-> ->]|[[[s ->] ->]| ->]];
    unfold bind, lift, ret; simpl; rewrite Hf; reflexivity.
Qed.

(* ================================================================== *)
(** * The subprocess (lines 77-112) *)
(* ================================================================== *)

(** The subprocess step, case by case. *)
Lemma run_ffmpeg_run hst c timeout (h : heap) :
  run_ffmpeg hst c timeout h =
  Run
    match ffmpeg hst (command_of c) (tobytes (c_array c)) timeout, timeout with
    | Overruns _ _, None => Blocks
    | Overruns _ stderr, Some t =>
        if c_verbose c then
          Raise (RuntimeError
                   (join ("TimeoutExpired: " +:+ num_str hst t +:+ "[s]. " +:+ " ")
                      (command_of c)))
        else match Utf8.decode stderr with
             | Some text =>
                 Raise (RuntimeError
                          ("TimeoutExpired: " +:+ num_str hst t +:+ "[s]. " +:+
                           join " " (command_of c) +:+ linesep hst +:+ text))
             | None => Raise UnicodeDecodeError
             end
    | Exits returncode stdout stderr, _ =>
        match (returncode =? 0)%Z, stdout with
        | true, Some stdout_bytes => Ok stdout_bytes
        | _, _ =>
            if c_verbose c then Raise (RuntimeError (join " " (command_of c)))
            else match Utf8.decode stderr with
                 | Some text =>
                     Raise (RuntimeError
                              (join " " (command_of c) +:+ linesep hst +:+ text))
                 | None => Raise UnicodeDecodeError
                 end
        end
    end
    h
    (Spawn (command_of c) (negb (c_verbose c)) :: after_spawn hst c timeout).
Proof.
  unfold run_ffmpeg, after_spawn, decode_stderr. cbv zeta.
  rewrite bind_emit.
  destruct (c_verbose c); cbv iota;
    rewrite ?bind_emit, ?bind_ret, ?bind_emit;
    (destruct (ffmpeg hst _ _ timeout) as [rc [out|] err|out err];
     [destruct (rc =? 0)%Z | destruct (rc =? 0)%Z | destruct timeout as [t|]]);
    cbv iota; rewrite ?bind_emit, ?bind_ret;
    try destruct (Utf8.decode err); rewrite ?bind_ret, ?bind_raise_now;
    reflexivity.
Qed.

Lemma run_ffmpeg_effects hst c timeout (h : heap) :
  store (run_ffmpeg hst c timeout h) = h /\
  trace (run_ffmpeg hst c timeout h)
  = Spawn (command_of c) (negb (c_verbose c)) :: after_spawn hst c timeout.
Proof.
  rewrite run_ffmpeg_run. split; reflexivity.
Qed.

Lemma after_spawn_no_spawn hst c timeout cmd cap :
  ~ In (Spawn cmd cap) (after_spawn hst c timeout).
Proof.
  unfold after_spawn.
  destruct (c_verbose c), (ffmpeg hst _ _ timeout), timeout; simpl;
    intros H; repeat (destruct H as [H|H]; try discriminate H); exact H.
Qed.

(** The process ended by itself with status 0 and an output stream. *)
Lemma run_ffmpeg_success hst c timeout (h : heap) stdout stderr :
  ffmpeg hst (command_of c) (tobytes (c_array c)) timeout
    = Exits 0 (Some stdout) stderr ->
  value (run_ffmpeg hst c timeout h) = Ok stdout.
Proof.
  intros E. rewrite run_ffmpeg_run. cbn [value]. rewrite E. reflexivity.
Qed.

(** Lines 107-112: a status other than 0, or no output stream. *)
Lemma run_ffmpeg_failure hst c timeout (h : heap) rc stdout stderr :
  ffmpeg hst (command_of c) (tobytes (c_array c)) timeout
    = Exits rc stdout stderr ->
  rc <> 0%Z \/ stdout = None ->
  value (run_ffmpeg hst c timeout h) =
    if c_verbose c then Raise (RuntimeError (join " " (command_of c)))
    else match Utf8.decode stderr with
         | Some text =>
             Raise (RuntimeError
                      (join " " (command_of c) +:+ linesep hst +:+ text))
         | None => Raise UnicodeDecodeError
         end.
Proof.
  intros E Hfail. rewrite run_ffmpeg_run. cbn [value]. rewrite E.
  destruct (rc =? 0)%Z eqn:Erc.
  - apply Z.eqb_eq in Erc. destruct Hfail as [Hrc| ->]; [contradiction|].
    reflexivity.
  - destruct stdout; reflexivity.
Qed.

(** Lines 93-105: the timeout elapses first. *)
Lemma run_ffmpeg_timeout hst c t (h : heap) stdout stderr :
  ffmpeg hst (command_of c) (tobytes (c_array c)) (Some t)
    = Overruns stdout stderr ->
  value (run_ffmpeg hst c (Some t) h) =
    if c_verbose c then
      Raise (RuntimeError
               (join ("TimeoutExpired: " +:+ num_str hst t +:+ "[s]. " +:+ " ")
                  (command_of c)))
    else match Utf8.decode stderr with
         | Some text =>
             Raise (RuntimeError
                      ("TimeoutExpired: " +:+ num_str hst t +:+ "[s]. " +:+
                       join " " (command_of c) +:+ linesep hst +:+ text))
         | None => Raise UnicodeDecodeError
         end.
Proof.
  intros E. rewrite run_ffmpeg_run. cbn [value]. rewrite E. reflexivity.
Qed.

(* ================================================================== *)
(** * The decoder (lines 114-130) *)
(* ================================================================== *)

Lemma fresh_above (h h' : heap) : h ⊆ h' -> h !! fresh (dom h') = None.
Proof.
  intros Hsub. eapply lookup_weaken_None; [|exact Hsub].
  apply not_elem_of_dom, is_fresh.
Qed.

(** The decoder, step by step. *)
Lemma decode_result_run hst c stdout_bytes (h : heap) :
  decode_result hst c stdout_bytes h =
  match fromstring stdout_bytes (arr_dtype (c_array c)) with
  | Ok decoded =>
      let h1 := <[fresh (dom h) := decoded]> h in
      let audio := astype hst decoded (c_out_type c) in
      let h2 := <[fresh (dom h1) := audio]> h1 in
      if (1 <? int_value (c_nchannel c))%Z then
        match reshape_rows audio (Z.to_nat (int_value (c_nchannel c))) with
        | Ok rows =>
            let h3 := <[fresh (dom h2) := rows]> h2 in
            let h4 := <[fresh (dom h3) := transpose rows]> h3 in
            if size (transpose rows) =? 0 then Run (Ok (fresh (dom h3))) h4 []
            else if bool_decide (kind (c_out_type c) = "f"%char)
                 then Run (Raise (NameError "normalize")) h4 []
                 else Run (Ok (fresh (dom h3))) h4 []
        | Raise e => Run (Raise e) h2 []
        | Blocks => Run Blocks h2 []
        end
      else
        if size audio =? 0 then Run (Ok (fresh (dom h1))) h2 []
        else if bool_decide (kind (c_out_type c) = "f"%char)
             then Run (Raise (NameError "normalize")) h2 []
             else Run (Ok (fresh (dom h1))) h2 []
  | Raise e => Run (Raise e) h []
  | Blocks => Run Blocks h []
  end.
Proof.
  unfold decode_result. rewrite bind_lift.
  destruct (fromstring stdout_bytes _) as [decoded|e|]; [|reflexivity..].
  rewrite bind_new. cbv beta zeta. rewrite bind_new.
  destruct (1 <? int_value (c_nchannel c))%Z; cbv iota.
  - rewrite bind_assoc, bind_lift.
    destruct (reshape_rows _ _) as [rows|e|]; [|reflexivity..].
    rewrite bind_assoc, bind_new. cbv beta zeta.
    rewrite bind_assoc, bind_new, bind_ret.
    cbv beta iota zeta.
    destruct (size (transpose rows) =? 0); [reflexivity|].
    destruct (bool_decide _); reflexivity.
  - rewrite bind_ret. cbv beta iota zeta.
    destruct (size _ =? 0); [reflexivity|].
    destruct (bool_decide _); reflexivity.
Qed.

Lemma decode_result_trace hst c stdout (h : heap) :
  trace (decode_result hst c stdout h) = [].
Proof.
  rewrite decode_result_run.
  destruct (fromstring stdout _); [|reflexivity..]. cbv zeta.
  destruct (1 <? int_value (c_nchannel c))%Z.
  - destruct (reshape_rows _ _); [|reflexivity..].
    destruct (size _ =? 0); [reflexivity|].
    destruct (bool_decide _); reflexivity.
  - destruct (size _ =? 0); [reflexivity|].
    destruct (bool_decide _); reflexivity.
Qed.

Lemma decode_result_grows hst c stdout : grows (decode_result hst c stdout).
Proof. unfold decode_result. repeat grows_step. Qed.

(** The array handed back: the cast of what was decoded, in channel-major
    layout when there are several channels; it is a new object, and it is
    empty whenever the requested type is a floating-point one. *)
Lemma decode_result_ok hst c stdout (h : heap) (l : loc) :
  value (decode_result hst c stdout h) = Ok l ->
  exists decoded audio,
    fromstring stdout (arr_dtype (c_array c)) = Ok decoded /\
    h !! l = None /\
    store (decode_result hst c stdout h) !! l = Some audio /\
    ((int_value (c_nchannel c) <= 1)%Z /\
       audio = astype hst decoded (c_out_type c) \/
     (1 < int_value (c_nchannel c))%Z /\
       exists rows,
         reshape_rows (astype hst decoded (c_out_type c))
           (Z.to_nat (int_value (c_nchannel c))) = Ok rows /\
         audio = transpose rows) /\
    (size audio = 0 \/ kind (c_out_type c) <> "f"%char).
Proof.
  rewrite decode_result_run.
  destruct (fromstring stdout _) as [decoded| |]; try discriminate.
  cbv zeta.
  set (h1 := <[fresh (dom h) := decoded]> h).
  set (audio := astype hst decoded (c_out_type c)).
  set (h2 := <[fresh (dom h1) := audio]> h1).
  assert (H1 : h ⊆ h1) by (apply insert_subseteq, fresh_above; done).
  assert (H2 : h1 ⊆ h2) by (apply insert_subseteq, fresh_above; done).
  destruct (1 <? int_value (c_nchannel c))%Z eqn:En.
  - apply Z.ltb_lt in En.
    destruct (reshape_rows audio _) as [rows| |] eqn:Er; try discriminate.
    set (h3 := <[fresh (dom h2) := rows]> h2).
    assert (H3 : h2 ⊆ h3) by (apply insert_subseteq, fresh_above; done).
    assert (Hfresh : h !! fresh (dom h3) = None).
    { apply fresh_above. now do 2 (etransitivity; [eassumption|]). }
    destruct (size (transpose rows) =? 0) eqn:Es; cbn [value store].
    + intros [= <-]. exists decoded, (transpose rows).
      rewrite lookup_insert_eq. apply Nat.eqb_eq in Es. eauto 10.
    + destruct (bool_decide _) eqn:Ek; cbn [value store]; [discriminate|].
      apply bool_decide_eq_false in Ek.
      intros [= <-]. exists decoded, (transpose rows).
      rewrite lookup_insert_eq. eauto 10.
  - apply Z.ltb_ge in En.
    assert (Hfresh : h !! fresh (dom h1) = None) by now apply fresh_above.
    destruct (size audio =? 0) eqn:Es; cbn [value store].
    + intros [= <-]. exists decoded, audio.
      unfold h2. rewrite lookup_insert_eq. apply Nat.eqb_eq in Es. eauto 10.
    + destruct (bool_decide _) eqn:Ek; cbn [value store]; [discriminate|].
      apply bool_decide_eq_false in Ek.
      intros [= <-]. exists decoded, audio.
      unfold h2. rewrite lookup_insert_eq. eauto 10.
Qed.

(** ** Row-major positions *)


Lemma nth_error_seq_lt (n i : nat) : i < n -> nth_error (seq 0 n) i = Some i.
Proof.
  intros Hi. rewrite (nth_error_nth' _ 0) by now rewrite length_seq.
  now rewrite seq_nth.
Qed.

Lemma indices_rows (n N : nat) :
  indices [n; N] = flat_map (fun i => map (fun j => [i; j]) (seq 0 N)) (seq 0 n).
Proof.
  simpl. apply flat_map_ext. intros i.
  induction (seq 0 N) as [|j js IH]; simpl; [reflexivity | now rewrite IH].
Qed.


(** ** reshape and transpose *)

Lemma reshape_rows_ok (a : ndarray) (n N : nat) :
  0 < n -> size a = n * N ->
  reshape_rows a n = Ok (Ndarray (arr_dtype a) [N; n] (arr_data a)).
Proof.
  intros Hn Hsize. unfold reshape_rows. rewrite Hsize.
  replace (n =? 0) with false by (symmetry; apply Nat.eqb_neq; lia).
  rewrite Nat.mul_comm, Nat.Div0.mod_mul, Nat.div_mul by lia. reflexivity.
Qed.



Lemma size_transpose_rows (d : dtype) (data : list Z) (n N : nat) :
  size (transpose (Ndarray d [N; n] data)) = n * N.
Proof. unfold size; simpl. lia. Qed.

(* ================================================================== *)
(** * audio_ffmpeg as a whole *)
(* ================================================================== *)

(** Once the checks have passed, the call is the subprocess followed by
    the decoder. *)
Lemma audio_ffmpeg_checked hst array nchannel sampling_rate before after
    out_type verbose timeout (h : heap) (c : checked) :
  value (check_args hst array nchannel sampling_rate before after out_type
           verbose h) = Ok c ->
  audio_ffmpeg hst array nchannel sampling_rate before after out_type verbose
    timeout h
  = bind (run_ffmpeg hst c timeout) (decode_result hst c) h.
Proof.
  intros Hc. unfold audio_ffmpeg.
  destruct (check_args_cases hst array nchannel sampling_rate before after
              out_type verbose h) as [[c' E]|[e E]];
    rewrite E in Hc; simpl in Hc; [|discriminate].
  injection Hc as ->. rewrite (bind_ok _ _ _ _ _ _ E). simpl. apply run_eta.
Qed.

(** When a check fails, so does the call, there and then. *)
Lemma audio_ffmpeg_rejected hst array nchannel sampling_rate before after
    out_type verbose timeout (h : heap) :
  (forall c, value (check_args hst array nchannel sampling_rate before after
                      out_type verbose h) <> Ok c) ->
  exists e,
    audio_ffmpeg hst array nchannel sampling_rate before after out_type verbose
      timeout h = Run (Raise e) h [] /\
    check_args hst array nchannel sampling_rate before after out_type
      verbose h = Run (Raise e) h [].
Proof.
  intros Hno. unfold audio_ffmpeg.
  destruct (check_args_cases hst array nchannel sampling_rate before after
              out_type verbose h) as [[c E]|[e E]].
  - exfalso. apply (Hno c). now rewrite E.
  - exists e. now rewrite (bind_raise _ _ _ _ _ _ E).
Qed.

Lemma audio_ffmpeg_trace hst array nchannel sampling_rate before after
    out_type verbose timeout (h : heap) (c : checked) :
  value (check_args hst array nchannel sampling_rate before after out_type
           verbose h) = Ok c ->
  trace (audio_ffmpeg hst array nchannel sampling_rate before after out_type
           verbose timeout h)
  = Spawn (command_of c) (negb (c_verbose c)) :: after_spawn hst c timeout.
Proof.
  intros Hc. rewrite (audio_ffmpeg_checked _ _ _ _ _ _ _ _ _ _ _ Hc).
  destruct (run_ffmpeg_effects hst c timeout h) as [Hs Ht].
  unfold bind. destruct (run_ffmpeg hst c timeout h) as [v s t].
  simpl in *. subst s t.
  destruct v; simpl; rewrite ?decode_result_trace, ?app_nil_r; reflexivity.
Qed.

(** The only subprocess a call starts is the one of the checked
    arguments. *)
Lemma audio_ffmpeg_spawn_inv hst array nchannel sampling_rate before after
    out_type verbose timeout (h : heap) cmd cap :
  In (Spawn cmd cap)
     (trace (audio_ffmpeg hst array nchannel sampling_rate before after
               out_type verbose timeout h)) ->
  exists c,
    value (check_args hst array nchannel sampling_rate before after out_type
             verbose h) = Ok c /\
    cmd = command_of c /\ cap = negb (c_verbose c).
Proof.
  intros Hin.
  destruct (check_args_cases hst array nchannel sampling_rate before after
              out_type verbose h) as [[c E]|[e E]].
  - exists c. assert (Hc := f_equal value E). simpl in Hc. split; [exact Hc|].
    rewrite (audio_ffmpeg_trace _ _ _ _ _ _ _ _ timeout _ _ Hc) in Hin.
    destruct Hin as [[= <- <-]|Hin]; [now split|].
    now apply after_spawn_no_spawn in Hin.
  - unfold audio_ffmpeg in Hin. rewrite (bind_raise _ _ _ _ _ _ E) in Hin.
    destruct Hin.
Qed.

Lemma audio_ffmpeg_grows hst array nchannel sampling_rate before after
    out_type verbose timeout :
  grows (audio_ffmpeg hst array nchannel sampling_rate before after out_type
           verbose timeout).
Proof.
  intros h.
  destruct (check_args_cases hst array nchannel sampling_rate before after
              out_type verbose h) as [[c E]|[e E]].
  - rewrite (audio_ffmpeg_checked _ _ _ _ _ _ _ _ timeout _ c)
      by now rewrite E.
    apply grows_bind; [|intros; apply decode_result_grows].
    intros h'. now rewrite (proj1 (run_ffmpeg_effects hst c timeout h')).
  - unfold audio_ffmpeg. now rewrite (bind_raise _ _ _ _ _ _ E).
Qed.

(** What a call that returns has gone through. *)
Lemma audio_ffmpeg_ok_inv hst array nchannel sampling_rate before after
    out_type verbose timeout (h : heap) (l : loc) :
  value (audio_ffmpeg hst array nchannel sampling_rate before after out_type
           verbose timeout h) = Ok l ->
  exists c stdout_bytes,
    value (check_args hst array nchannel sampling_rate before after out_type
             verbose h) = Ok c /\
    value (run_ffmpeg hst c timeout h) = Ok stdout_bytes /\
    value (decode_result hst c stdout_bytes h) = Ok l /\
    store (audio_ffmpeg hst array nchannel sampling_rate before after out_type
             verbose timeout h)
    = store (decode_result hst c stdout_bytes h).
Proof.
  destruct (check_args_cases hst array nchannel sampling_rate before after
              out_type verbose h) as [[c E]|[e E]].
  - assert (Hc := f_equal value E). simpl in Hc.
    rewrite (audio_ffmpeg_checked _ _ _ _ _ _ _ _ timeout _ c Hc).
    destruct (run_ffmpeg_effects hst c timeout h) as [Hs _].
    intros Hl. exists c. unfold bind in *.
    destruct (run_ffmpeg hst c timeout h) as [v s t].
    simpl in Hs. subst s.
    destruct v as [stdout_bytes| |]; simpl in Hl; try discriminate.
    exists stdout_bytes. repeat split; auto.
  - unfold audio_ffmpeg. rewrite (bind_raise _ _ _ _ _ _ E). discriminate.
Qed.

(** The other way round. *)
Lemma audio_ffmpeg_decodes hst array nchannel sampling_rate before after
    out_type verbose timeout (h : heap) (c : checked) stdout_bytes :
  value (check_args hst array nchannel sampling_rate before after out_type
           verbose h) = Ok c ->
  value (run_ffmpeg hst c timeout h) = Ok stdout_bytes ->
  let r := audio_ffmpeg hst array nchannel sampling_rate before after out_type
             verbose timeout h in
  value r = value (decode_result hst c stdout_bytes h) /\
  store r = store (decode_result hst c stdout_bytes h).
Proof.
  intros Hc Hr. cbv zeta.
  rewrite (audio_ffmpeg_checked _ _ _ _ _ _ _ _ timeout _ c Hc).
  destruct (run_ffmpeg_effects hst c timeout h) as [Hs _].
  unfold bind. destruct (run_ffmpeg hst c timeout h) as [v s t].
  simpl in *. subst s v. simpl. auto.
Qed.

(** A call that does not get past the subprocess ends as the subprocess
    step does. *)
Lemma audio_ffmpeg_stops hst array nchannel sampling_rate before after
    out_type verbose timeout (h : heap) (c : checked) (e : exn) :
  value (check_args hst array nchannel sampling_rate before after out_type
           verbose h) = Ok c ->
  value (run_ffmpeg hst c timeout h) = Raise e ->
  value (audio_ffmpeg hst array nchannel sampling_rate before after out_type
           verbose timeout h) = Raise e.
Proof.
  intros Hc Hr.
  rewrite (audio_ffmpeg_checked _ _ _ _ _ _ _ _ timeout _ c Hc).
  unfold bind. now rewrite Hr.
Qed.

(* ================================================================== *)
(** * Normalisation (lines 122-130) *)
(* ================================================================== *)

(** Whenever a non-empty array is to be returned with a floating-point
    type, line 123 fails on the unbound name. *)
Lemma decode_result_float hst c stdout_bytes (h : heap) decoded :
  fromstring stdout_bytes (arr_dtype (c_array c)) = Ok decoded ->
  (int_value (c_nchannel c) <= 1)%Z ->
  size decoded <> 0 ->
  kind (c_out_type c) = "f"%char ->
  value (decode_result hst c stdout_bytes h) = Raise (NameError "normalize").
Proof.
  intros Hd Hn Hs Hk.
  rewrite decode_result_run, Hd. cbv zeta.
  replace (1 <? int_value (c_nchannel c))%Z with false
    by (symmetry; now apply Z.ltb_ge).
  change (size (astype hst decoded (c_out_type c))) with (size decoded).
  replace (size decoded =? 0) with false by (symmetry; now apply Nat.eqb_neq).
  now rewrite bool_decide_eq_true_2.
Qed.

(** C2: on an all-zero buffer of four 32-bit floats that the tool hands
    back unchanged, with the output type left to default to the
    floating-point input type, the call does not return the all-zero
    buffer: it gets as far as the normalisation and stops there with
    NameError on [normalize]. *)
Theorem all_zero_float_buffer_raises_NameError :
  let r := audio_ffmpeg echo_host (PArray 1%positive) mono rate_16k None None
             PNone quiet None (store_of (zeros 4 float32)) in
  value r = Raise (NameError "normalize") /\
  trace r =
    [Spawn ["ffmpeg"; "-f"; "f32le"; "-ar"; "16000"; "-ac"; "1"; "-i";
            "pipe:0"; "-f"; "f32le"; "-ar"; "16000"; "-ac"; "1"; "-"] true;
     Communicate (repeat x00 16) None].
Proof. vm_compute. split; reflexivity. Qed.

(* ================================================================== *)
(** * Errors before the subprocess (lines 50-76) *)
(* ================================================================== *)

Lemma get_format_supported (d : dtype) (fmt : string) :
  get_format d = Ok fmt -> supported d.
Proof.
  unfold get_format, format_strings, find_format, supported.
  repeat case_decide; subst; intros; try discriminate; tauto.
Qed.

(** Whatever the other arguments, an array whose element type is not in
    the table never gets a subprocess started. *)
Lemma unsupported_input_type_never_spawns hst l a nchannel sampling_rate
    before after out_type verbose timeout (h : heap) :
  h !! l = Some a -> ~ supported (arr_dtype a) ->
  exists e,
    audio_ffmpeg hst (PArray l) nchannel sampling_rate before after out_type
      verbose timeout h = Run (Raise e) h [].
Proof.
  intros Hl Hd.
  destruct (audio_ffmpeg_rejected hst (PArray l) nchannel sampling_rate before
              after out_type verbose timeout h) as (e & E & _); [|eauto].
  intros c Hc. apply check_args_inv in Hc.
  destruct Hc as (_ & (l' & [= <-] & Hl') & _ & _ & _ & _ & _ & _ & Hf).
  apply Hd. rewrite Hl in Hl'. injection Hl' as ->.
  eapply get_format_supported, Hf.
Qed.

(** C3, as the code has it: the element type that is checked against the
    table is the one of the input buffer. With the tool installed and the
    other arguments of the documented classes, an input buffer whose
    element type is not one of the five makes the call fail with the
    unsupported-type error before any subprocess is started; the store is
    untouched. The requested output type only has to be None, a string or
    a dtype. *)
Theorem unsupported_input_type_fails_before_spawn hst l a nch rate
    (before after : option (list string)) out_type vb timeout (h : heap) :
  which_ffmpeg hst = true ->
  h !! l = Some a ->
  ~ supported (arr_dtype a) ->
  (out_type = PNone \/ (exists s, out_type = PStr s) \/
   exists d, out_type = PDtype d) ->
  audio_ffmpeg hst (PArray l) (PInt nch) (PInt rate)
    (map PStr <$> before) (map PStr <$> after) out_type (PInt (IBool vb))
    timeout h
  = Run (Raise (RuntimeError ("Not supported type: " +:+ dtype_str (arr_dtype a))))
        h [].
Proof.
  intros Hw Hl Hd Hout.
  assert (Hf : get_format (arr_dtype a) =
               Raise (RuntimeError ("Not supported type: " +:+ dtype_str (arr_dtype a))))
    by now apply get_format_unsupported.
  unfold audio_ffmpeg. apply bind_raise.
  unfold check_args. rewrite Hw. simpl.
  unfold bind at 1; simpl. rewrite Hl.
  rewrite (bind_ok _ _ _ _ _ _ (check_options_strs after h)).
  rewrite (bind_ok _ _ _ _ _ _ (check_options_strs before h)).
  destruct Hout as [->|[[s ->]|[d ->]]];
    unfold bind, lift, ret; simpl; rewrite Hf; reflexivity.
Qed.

Lemma unsupported_input_type_fails_before_spawn_witness :
  audio_ffmpeg echo_host (PArray 1%positive) mono rate_16k None None
    PNone quiet None (store_of (zeros 4 int64))
  = Run (Raise (RuntimeError "Not supported type: int64"))
        (store_of (zeros 4 int64)) [].
Proof.
  apply (unsupported_input_type_fails_before_spawn echo_host 1%positive
           (zeros 4 int64) (IInt 1) (IInt 16000) None None PNone false None
           (store_of (zeros 4 int64))).
  - reflexivity.
  - reflexivity.
  - unfold supported; simpl. intros [H|[H|[H|[H|H]]]]; discriminate H.
  - left; reflexivity.
Defined.

(** C3 as stated fails: a requested output type outside the table
    (64-bit integers, on a 16-bit buffer) is accepted; the subprocess is
    started and the call returns an array of that type. *)
Lemma unsupported_out_type_is_accepted :
  let r := audio_ffmpeg echo_host (PArray 1%positive) mono rate_16k None None
             (PDtype int64) quiet None
             (store_of (Ndarray int16 [2] [1; 2]%Z)) in
  ~ supported int64 /\
  trace r =
    [Spawn ["ffmpeg"; "-f"; "s16le"; "-ar"; "16000"; "-ac"; "1"; "-i";
            "pipe:0"; "-f"; "s16le"; "-ar"; "16000"; "-ac"; "1"; "-"] true;
     Communicate [x01; x00; x02; x00] None] /\
  value r = Ok 3%positive /\
  store r !! 3%positive = Some (Ndarray int64 [2] [1; 2]%Z).
Proof.
  cbv zeta. split; [|vm_compute; repeat split; reflexivity].
  unfold supported. intros [H|[H|[H|[H|H]]]]; discriminate H.
Qed.

(* ================================================================== *)
(** * Process failure (lines 107-112) *)
(* ================================================================== *)

(** C4, as the code has it: when the subprocess exits with a status other
    than 0, or hands back no output stream, the call fails with a
    RuntimeError whose message is the command line joined by spaces and
    nothing else in verbose mode, and the command line, the line
    separator and the diagnostic text otherwise, for diagnostics that
    decode as UTF-8. The exit status is not part of the message. *)
Theorem process_failure_message hst array nchannel sampling_rate before after
    out_type verbose timeout (h : heap) (c : checked) rc stdout stderr :
  value (check_args hst array nchannel sampling_rate before after out_type
           verbose h) = Ok c ->
  ffmpeg hst (command_of c) (tobytes (c_array c)) timeout
    = Exits rc stdout stderr ->
  rc <> 0%Z \/ stdout = None ->
  let r := audio_ffmpeg hst array nchannel sampling_rate before after out_type
             verbose timeout h in
  (c_verbose c = true ->
     value r = Raise (RuntimeError (join " " (command_of c)))) /\
  (c_verbose c = false ->
     forall text, Utf8.decode stderr = Some text ->
       value r = Raise (RuntimeError
                          (join " " (command_of c) +:+ linesep hst +:+ text))).
Proof.
  intros Hc Hrun Hfail r.
  pose proof (run_ffmpeg_failure hst c timeout h rc stdout stderr Hrun Hfail)
    as Hv.
  split.
  - intros Hvb. rewrite Hvb in Hv.
    exact (audio_ffmpeg_stops _ _ _ _ _ _ _ _ _ _ _ _ Hc Hv).
  - intros Hvb text Htext. rewrite Hvb, Htext in Hv.
    exact (audio_ffmpeg_stops _ _ _ _ _ _ _ _ _ _ _ _ Hc Hv).
Qed.

Lemma process_failure_message_witness :
  value (audio_ffmpeg
           (host_with (Exits 234 (Some [])
                         (list_byte_of_string "Conversion failed!")))
           (PArray 1%positive) mono rate_16k None None PNone quiet None
           (store_of (zeros 4 int16)))
  = Raise (RuntimeError
             ("ffmpeg -f s16le -ar 16000 -ac 1 -i pipe:0 -f s16le -ar 16000 -ac 1 -"
              +:+ String "010" "Conversion failed!")).
Proof.
  refine (proj2 (process_failure_message
                   (host_with (Exits 234 (Some [])
                                 (list_byte_of_string "Conversion failed!")))
                   (PArray 1%positive) mono rate_16k None None PNone quiet None
                   (store_of (zeros 4 int16))
                   (Checked (zeros 4 int16) (IInt 1) (IInt 16000) [] [] false
                      int16 "s16le")
                   234 (Some []) (list_byte_of_string "Conversion failed!")
                   _ _ _) _ "Conversion failed!" _).
  - vm_compute. reflexivity.
  - reflexivity.
  - left. discriminate.
  - reflexivity.
  - vm_compute. reflexivity.
Defined.

(** C4 as stated fails: the tool exits with status 234; the message of
    the error is the command line and the diagnostic text, and the status
    occurs nowhere in it. *)
Lemma exit_status_not_in_message :
  let r := audio_ffmpeg
             (host_with (Exits 234 (Some [])
                           (list_byte_of_string "Conversion failed!")))
             (PArray 1%positive) mono rate_16k None None PNone quiet None
             (store_of (zeros 4 int16)) in
  let mes := "ffmpeg -f s16le -ar 16000 -ac 1 -i pipe:0 -f s16le -ar 16000 -ac 1 -"
             +:+ String "010" "Conversion failed!" in
  value r = Raise (RuntimeError mes) /\ ~ embeds (Z_str 234) mes.
Proof.
  cbv zeta. split.
  - vm_compute. reflexivity.
  - intros H%embeds_contains. vm_compute in H. discriminate H.
Qed.

(* ================================================================== *)
(** * Timeout (lines 90-105) *)
(* ================================================================== *)

Lemma append_empty (s : string) : s +:+ "" = s.
Proof.
  induction s as [|x s IH]; [reflexivity|].
  change (String x (s +:+ "") = String x s). now rewrite IH.
Qed.

(** The message put together in verbose mode names the bound between any
    two tokens of the command, and every command has more than one. *)
Lemma verbose_timeout_message_embeds (bound : string) (c : checked) :
  embeds bound
    (join ("TimeoutExpired: " +:+ bound +:+ "[s]. " +:+ " ") (command_of c)).
Proof.
  unfold command_of, build_command, join. cbn [app String.concat].
  eexists ("ffmpeg" +:+ "TimeoutExpired: "), _.
  rewrite !append_assoc. reflexivity.
Qed.

(** When the diagnostics do not decode, the timeout error is never
    built. *)
Lemma timeout_undecodable hst array nchannel sampling_rate before after
    out_type verbose t (h : heap) (c : checked) stdout stderr :
  value (check_args hst array nchannel sampling_rate before after out_type
           verbose h) = Ok c ->
  ffmpeg hst (command_of c) (tobytes (c_array c)) (Some t)
    = Overruns stdout stderr ->
  c_verbose c = false -> Utf8.decode stderr = None ->
  value (audio_ffmpeg hst array nchannel sampling_rate before after out_type
           verbose (Some t) h) = Raise UnicodeDecodeError.
Proof.
  intros Hc Hrun Hvb Htext.
  pose proof (run_ffmpeg_timeout hst c t h stdout stderr Hrun) as Hv.
  rewrite Hvb, Htext in Hv.
  exact (audio_ffmpeg_stops _ _ _ _ _ _ _ _ _ _ _ _ Hc Hv).
Qed.

(** X1: when a timeout is set and elapses before the subprocess ends,
    the subprocess is killed and its streams are read to the end; in
    verbose mode the call then fails with a RuntimeError whose message
    names the bound, and otherwise, when the diagnostics decode as UTF-8,
    with a RuntimeError whose message names the bound and holds the
    diagnostic text. *)
Theorem timeout_kills_and_drains hst array nchannel sampling_rate before after
    out_type verbose t (h : heap) (c : checked) stdout stderr :
  value (check_args hst array nchannel sampling_rate before after out_type
           verbose h) = Ok c ->
  ffmpeg hst (command_of c) (tobytes (c_array c)) (Some t)
    = Overruns stdout stderr ->
  let r := audio_ffmpeg hst array nchannel sampling_rate before after out_type
             verbose (Some t) h in
  trace r =
    Spawn (command_of c) (negb (c_verbose c)) ::
    (if c_verbose c then [Print (join " " (command_of c))] else []) ++
    [Communicate (tobytes (c_array c)) (Some t); Kill; Drain] /\
  (c_verbose c = true ->
     exists mes,
       value r = Raise (RuntimeError mes) /\ embeds (num_str hst t) mes) /\
  (c_verbose c = false ->
     forall text, Utf8.decode stderr = Some text ->
       exists mes,
         value r = Raise (RuntimeError mes) /\
         embeds (num_str hst t) mes /\ embeds text mes).
Proof.
  intros Hc Hrun r.
  pose proof (run_ffmpeg_timeout hst c t h stdout stderr Hrun) as Hv.
  split; [|split].
  - unfold r. rewrite (audio_ffmpeg_trace _ _ _ _ _ _ _ _ _ _ _ Hc).
    unfold after_spawn. now rewrite Hrun.
  - intros Hvb. rewrite Hvb in Hv.
    eexists. split; [exact (audio_ffmpeg_stops _ _ _ _ _ _ _ _ _ _ _ _ Hc Hv)|].
    apply verbose_timeout_message_embeds.
  - intros Hvb text Htext. rewrite Hvb, Htext in Hv.
    eexists. split; [exact (audio_ffmpeg_stops _ _ _ _ _ _ _ _ _ _ _ _ Hc Hv)|].
    split.
    + apply embeds_here.
    + exists ("TimeoutExpired: " +:+ num_str hst t +:+ "[s]. " +:+
              join " " (command_of c) +:+ linesep hst), "".
      now rewrite !append_assoc, append_empty.
Qed.

Lemma timeout_kills_and_drains_witness :
  let r := audio_ffmpeg
             (host_with (Overruns [] (list_byte_of_string "size=       0kB")))
             (PArray 1%positive) mono rate_16k None None PNone quiet
             (Some (NFloat 0.5%float)) (store_of (zeros 4 int16)) in
  exists mes,
    value r = Raise (RuntimeError mes) /\
    embeds "0.5" mes /\ embeds "size=       0kB" mes.
Proof.
  refine (proj2 (proj2 (timeout_kills_and_drains
                   (host_with (Overruns [] (list_byte_of_string "size=       0kB")))
                   (PArray 1%positive) mono rate_16k None None PNone quiet
                   (NFloat 0.5%float) (store_of (zeros 4 int16))
                   (Checked (zeros 4 int16) (IInt 1) (IInt 16000) [] [] false
                      int16 "s16le")
                   [] (list_byte_of_string "size=       0kB") _ _))
            _ "size=       0kB" _).
  - vm_compute. reflexivity.
  - reflexivity.
  - reflexivity.
  - vm_compute. reflexivity.
Defined.

(** C5: the timeout of half a second elapses while the tool is running;
    it is killed and drained, and its diagnostic stream ends in the first
    byte of a two-byte character. The call does not fail with the timeout
    error: line 104 decodes the diagnostics strictly while that error's
    message is being put together, and UnicodeDecodeError is what is
    raised. *)
Lemma timeout_with_undecodable_diagnostics :
  let r := audio_ffmpeg
             (host_with (Overruns [] (list_byte_of_string "caf" ++ [xc3])))
             (PArray 1%positive) mono rate_16k None None PNone quiet
             (Some (NFloat 0.5%float)) (store_of (zeros 4 int16)) in
  value r = Raise UnicodeDecodeError /\
  trace r =
    [Spawn ["ffmpeg"; "-f"; "s16le"; "-ar"; "16000"; "-ac"; "1"; "-i";
            "pipe:0"; "-f"; "s16le"; "-ar"; "16000"; "-ac"; "1"; "-"] true;
     Communicate (repeat x00 8) (Some (NFloat 0.5%float));
     Kill; Drain].
Proof. vm_compute. split; reflexivity. Qed.

(* ================================================================== *)
(** * Channel layout (lines 116-117) *)
(* ================================================================== *)

Lemma fromstring_ok (s : bytes) (d : dtype) (a : ndarray) :
  fromstring s d = Ok a ->
  arr_dtype a = d /\
  arr_shape a = [length s / itemsize d] /\
  length (arr_data a) = length s / itemsize d /\
  length s mod itemsize d = 0.
Proof.
  unfold fromstring. destruct (_ || _); [discriminate|].
  destruct (length s mod itemsize d =? 0) eqn:E; simpl; [|discriminate].
  intros [= <-]. simpl. rewrite length_map, length_seq.
  apply Nat.eqb_eq in E. auto.
Qed.

Lemma size_flat (a : ndarray) (n : nat) : arr_shape a = [n] -> size a = n.
Proof. unfold size. intros ->. simpl. lia. Qed.

(** The decoder on several channels, once the rows have been formed. *)
Lemma decode_result_rows hst c stdout_bytes (h : heap) decoded rows :
  fromstring stdout_bytes (arr_dtype (c_array c)) = Ok decoded ->
  (1 < int_value (c_nchannel c))%Z ->
  reshape_rows (astype hst decoded (c_out_type c))
    (Z.to_nat (int_value (c_nchannel c))) = Ok rows ->
  let r := decode_result hst c stdout_bytes h in
  exists l,
    store r !! l = Some (transpose rows) /\
    value r =
      if size (transpose rows) =? 0 then Ok l
      else if bool_decide (kind (c_out_type c) = "f"%char)
           then Raise (NameError "normalize")
           else Ok l.
Proof.
  intros Hd Hn Hr.
  rewrite decode_result_run, Hd. cbv zeta.
  replace (1 <? int_value (c_nchannel c))%Z with true
    by (symmetry; now apply Z.ltb_lt).
  rewrite Hr.
  destruct (size (transpose rows) =? 0); [|destruct (bool_decide _)];
    cbn [value store];
    eexists; (split; [apply lookup_insert_eq | reflexivity]).
Qed.




(* ================================================================== *)
(** * The command line (lines 77-80) *)
(* ================================================================== *)

(** C8: the command every call runs is the tool name, the format, rate
    and channel count of the input, the before-input options in their
    order, the input on standard input ([-i pipe:0]), the after-input
    options in their order, and the same format, rate and channel count
    for the output, sent to standard output ([-]). *)
Theorem command_shape hst array nchannel sampling_rate before after out_type
    verbose timeout (h : heap) cmd cap :
  In (Spawn cmd cap)
     (trace (audio_ffmpeg hst array nchannel sampling_rate before after
               out_type verbose timeout h)) ->
  exists l a fmt nch rate before_opts after_opts,
    array = PArray l /\ h !! l = Some a /\
    get_format (arr_dtype a) = Ok fmt /\
    nchannel = PInt nch /\ sampling_rate = PInt rate /\
    default [] before = map PStr before_opts /\
    default [] after = map PStr after_opts /\
    cmd = ["ffmpeg"; "-f"; fmt; "-ar"; int_str rate; "-ac"; int_str nch] ++
          before_opts ++ ["-i"; "pipe:0"] ++ after_opts ++
          ["-f"; fmt; "-ar"; int_str rate; "-ac"; int_str nch; "-"].
Proof.
  intros Hin. apply audio_ffmpeg_spawn_inv in Hin.
  destruct Hin as (c & Hc & -> & _).
  apply check_args_inv in Hc.
  destruct Hc as (_ & (l & -> & Hl) & -> & -> & Hb & Ha & _ & _ & Hf).
  exists l, (c_array c), (c_format c), (c_nchannel c), (c_sampling_rate c),
    (c_before c), (c_after c).
  repeat split; auto.
Qed.

Lemma command_shape_witness :
  exists l a fmt nch rate before_opts after_opts,
    PArray 1%positive = PArray l /\ store_of (zeros 4 int16) !! l = Some a /\
    get_format (arr_dtype a) = Ok fmt /\
    PInt (IInt 2) = PInt nch /\ rate_16k = PInt rate /\
    default [] (Some [PStr "-guess_layout_max"; PStr "0"]) = map PStr before_opts /\
    default [] (Some [PStr "-ss"; PStr "0"; PStr "-t"; PStr "1"])
      = map PStr after_opts /\
    ["ffmpeg"; "-f"; "s16le"; "-ar"; "16000"; "-ac"; "2";
     "-guess_layout_max"; "0"; "-i"; "pipe:0"; "-ss"; "0"; "-t"; "1";
     "-f"; "s16le"; "-ar"; "16000"; "-ac"; "2"; "-"]
    = ["ffmpeg"; "-f"; fmt; "-ar"; int_str rate; "-ac"; int_str nch] ++
      before_opts ++ ["-i"; "pipe:0"] ++ after_opts ++
      ["-f"; fmt; "-ar"; int_str rate; "-ac"; int_str nch; "-"].
Proof.
  apply (command_shape echo_host (PArray 1%positive) (PInt (IInt 2)) rate_16k
           (Some [PStr "-guess_layout_max"; PStr "0"])
           (Some [PStr "-ss"; PStr "0"; PStr "-t"; PStr "1"])
           PNone quiet None (store_of (zeros 4 int16)) _ true).
  vm_compute. left. reflexivity.
Defined.

(* ================================================================== *)
(** * audio_atempo (lines 153-164) *)
(* ================================================================== *)

Lemma get_format_tag (d : dtype) (fmt : string) :
  get_format d = Ok fmt ->
  fmt = "f64le" \/ fmt = "f32le" \/ fmt = "s16le" \/ fmt = "s32le" \/
  fmt = "u32le".
Proof.
  unfold get_format, format_strings, find_format.
  repeat case_decide; intros [= <-]; tauto.
Qed.

(** A printed integer is neither the flag [-af] nor a filter expression. *)
Lemma int_str_no_tempo_token (i : pyint) :
  (String.eqb (int_str i) "-af" || String.prefix "atempo=" (int_str i)) = false.
Proof.
  destruct i as [z|[|]]; [|reflexivity..].
  unfold int_str, Z_str. destruct (Z.to_int z) as [u|u]; destruct u; reflexivity.
Qed.

Lemma map_PStr_inj (xs ys : list string) : map PStr xs = map PStr ys -> xs = ys.
Proof.
  revert ys. induction xs as [|x xs IH]; intros [|y ys]; simpl; try discriminate.
  - reflexivity.
  - intros [= -> H]. f_equal. now apply IH.
Qed.

Lemma tempo_tokens_build (fmt : string) (rate nch : pyint) (opts : list string)
    (d : dtype) :
  get_format d = Ok fmt ->
  tempo_tokens (build_command fmt rate nch [] opts) = tempo_tokens opts.
Proof.
  intros Hf. unfold tempo_tokens, build_command.
  rewrite !List.filter_app. cbn [List.filter app].
  rewrite !int_str_no_tempo_token.
  apply get_format_tag in Hf.
  destruct Hf as [->|[->|[->|[->| ->]]]]; cbn; apply app_nil_r.
Qed.

(** Python's [==] on floats against 1.0 holds for the float 1.0 only. *)
Lemma float_eqb_one (f : float) :
  PrimFloat.eqb f 1%float = true <-> f = 1%float.
Proof.
  split; [|intros ->; reflexivity].
  rewrite FloatAxioms.eqb_spec. intros H. apply FloatAxioms.Prim2SF_inj.
  change (FloatOps.Prim2SF 1%float)
    with (SpecFloat.S754_finite false 4503599627370496 (-52)) in *.
  unfold SpecFloat.SFeqb, SpecFloat.SFcompare in H.
  destruct (FloatOps.Prim2SF f) as [s|s| |s m e]; try discriminate H;
    try (destruct s; discriminate H).
  destruct s; [discriminate H|].
  destruct (Z.compare e (-52)) eqn:Ee; try discriminate H.
  apply Z.compare_eq in Ee. subst e.
  destruct (Pos.compare_cont Eq m 4503599627370496) eqn:Em;
    try discriminate H.
  apply Pos.compare_eq in Em. now subst m.
Qed.

(** The test of line 153 singles out the numbers that are 1.0. *)
Lemma is_one_unit_tempo (x : pynum) : is_one x = true <-> unit_tempo x.
Proof.
  unfold unit_tempo. destruct x as [[z|b]|f]; simpl.
  - rewrite Z.eqb_eq. split.
    + intros ->. right. now left.
    + intros [H|[H|H]]; congruence.
  - destruct b; simpl; split; try discriminate; auto.
    intros [H|[H|H]]; discriminate H.
  - rewrite float_eqb_one. split.
    + intros ->. now left.
    + intros [H|[H|H]]; congruence.
Qed.

(** C7: whenever the tempo change runs a command, (a) for a tempo that is
    1.0 it is the transform called with no option at all, and the command
    holds no token of a tempo filter; (b) for any other tempo above zero it
    is the transform called with the after-input options [-af] and
    [atempo=] followed by the printed tempo and nothing else, and these two
    are the only tokens of a tempo filter in the command, placed after the
    input. *)
Theorem tempo_filter_option hst array tempo nchannel sampling_rate out_type
    verbose timeout (h : heap) cmd cap :
  In (Spawn cmd cap)
     (trace (audio_atempo hst array tempo nchannel sampling_rate out_type
               verbose timeout h)) ->
  (unit_tempo tempo ->
     audio_atempo hst array tempo nchannel sampling_rate out_type verbose
       timeout h
     = audio_ffmpeg hst array nchannel sampling_rate None (Some []) out_type
         verbose timeout h /\
     (exists fmt rate nch, cmd = build_command fmt rate nch [] []) /\
     tempo_tokens cmd = []) /\
  (positive_tempo tempo -> ~ unit_tempo tempo ->
     audio_atempo hst array tempo nchannel sampling_rate out_type verbose
       timeout h
     = audio_ffmpeg hst array nchannel sampling_rate None
         (Some [PStr "-af"; PStr ("atempo=" +:+ num_str hst tempo)]) out_type
         verbose timeout h /\
     (exists fmt rate nch,
        cmd = build_command fmt rate nch []
                ["-af"; "atempo=" +:+ num_str hst tempo]) /\
     tempo_tokens cmd = ["-af"; "atempo=" +:+ num_str hst tempo]).
Proof.
  intros Hin.
  assert (Hopts : (unit_tempo tempo -> atempo_options hst tempo = []) /\
                  (~ unit_tempo tempo ->
                   atempo_options hst tempo
                   = ["-af"; "atempo=" +:+ num_str hst tempo])).
  { unfold atempo_options. destruct (is_one tempo) eqn:E.
    - apply is_one_unit_tempo in E. split; [reflexivity | contradiction].
    - split; [|reflexivity]. intros Hu. apply is_one_unit_tempo in Hu.
      congruence. }
  destruct Hopts as [Hunit Hother].
  unfold audio_atempo in *. apply audio_ffmpeg_spawn_inv in Hin.
  destruct Hin as (c & Hc & -> & _).
  apply check_args_inv in Hc.
  destruct Hc as (_ & _ & _ & _ & Hb & Ha & _ & _ & Hf).
  simpl in Hb, Ha. apply map_PStr_inj in Ha.
  assert (Eb : c_before c = [])
    by (destruct (c_before c); [reflexivity | discriminate Hb]).
  unfold command_of. rewrite Eb, <- Ha.
  rewrite (tempo_tokens_build _ _ _ _ _ Hf).
  split.
  - intros Hu. rewrite (Hunit Hu). repeat split; eauto.
  - intros _ Hnu. rewrite (Hother Hnu). repeat split; eauto.
    unfold tempo_tokens. cbn [List.filter].
    change (String.eqb ("atempo=" +:+ num_str hst tempo) "-af") with false.
    rewrite prefix_append. reflexivity.
Qed.

Lemma tempo_filter_option_witness :
  tempo_tokens
    ["ffmpeg"; "-f"; "s16le"; "-ar"; "16000"; "-ac"; "1"; "-i"; "pipe:0";
     "-f"; "s16le"; "-ar"; "16000"; "-ac"; "1"; "-"] = [] /\
  tempo_tokens
    ["ffmpeg"; "-f"; "s16le"; "-ar"; "16000"; "-ac"; "1"; "-i"; "pipe:0";
     "-af"; "atempo=2.0"; "-f"; "s16le"; "-ar"; "16000"; "-ac"; "1"; "-"]
  = ["-af"; "atempo=" +:+ num_str echo_host (NFloat 2%float)].
Proof.
  split.
  - refine (proj2 (proj2 (proj1
             (tempo_filter_option echo_host (PArray 1%positive)
                (NFloat 1%float) mono rate_16k PNone quiet None
                (store_of (zeros 4 int16)) _ true _) _))).
    + vm_compute. left. reflexivity.
    + left. reflexivity.
  - refine (proj2 (proj2 (proj2
             (tempo_filter_option echo_host (PArray 1%positive)
                (NFloat 2%float) mono rate_16k PNone quiet None
                (store_of (zeros 4 int16)) _ true _) _ _))).
    + vm_compute. left. reflexivity.
    + reflexivity.
    + intros [H|[H|H]]; [|discriminate H..].
      apply (f_equal (fun x => match x with
                               | NFloat f => PrimFloat.eqb f 1%float
                               | _ => false
                               end)) in H.
      discriminate H.
Defined.

(* ================================================================== *)
(** * The returned array *)
(* ================================================================== *)

Lemma reshape_rows_dtype (a rows : ndarray) (n : nat) :
  reshape_rows a n = Ok rows -> arr_dtype rows = arr_dtype a.
Proof.
  unfold reshape_rows. destruct (_ || _); [discriminate|]. now intros [= <-].
Qed.

Lemma astype_dtype hst (a : ndarray) (d : dtype) :
  supported d -> arr_dtype (astype hst a d) = d.
Proof. intros [->|[->|[->|[->| ->]]]]; reflexivity. Qed.

(** C9: when the output type is left out (None), an array that the call
    returns has the element type of the input array. *)
Theorem default_output_type hst array nchannel sampling_rate before after
    verbose timeout (h : heap) (l' : loc) :
  let r := audio_ffmpeg hst array nchannel sampling_rate before after PNone
             verbose timeout h in
  value r = Ok l' ->
  exists l a audio,
    array = PArray l /\ h !! l = Some a /\
    store r !! l' = Some audio /\
    arr_dtype audio = arr_dtype a.
Proof.
  intros r Hr. unfold r in *.
  apply audio_ffmpeg_ok_inv in Hr.
  destruct Hr as (c & stdout_bytes & Hc & _ & Hdec & Hstore).
  apply check_args_inv in Hc.
  destruct Hc as (_ & (l & -> & Hl) & _ & _ & _ & _ & _ & Hout & Hf).
  destruct Hout as [[_ Hout]|[[[s [=]] _]|[=]]].
  apply get_format_supported in Hf.
  apply decode_result_ok in Hdec.
  destruct Hdec as (decoded & audio & _ & _ & Hl' & Hlayout & _).
  exists l, (c_array c), audio. rewrite Hstore.
  repeat split; auto.
  destruct Hlayout as [[_ ->]|[_ (rows & Hrows & ->)]].
  - rewrite Hout. now apply astype_dtype.
  - apply reshape_rows_dtype in Hrows. simpl. rewrite Hrows, Hout.
    now apply astype_dtype.
Qed.

Lemma default_output_type_witness :
  exists l a audio,
    PArray 1%positive = PArray l /\
    store_of (Ndarray int16 [2] [1; 2]%Z) !! l = Some a /\
    store (audio_ffmpeg echo_host (PArray 1%positive) mono rate_16k None None
             PNone quiet None (store_of (Ndarray int16 [2] [1; 2]%Z)))
      !! 3%positive = Some audio /\
    arr_dtype audio = arr_dtype a.
Proof.
  apply (default_output_type echo_host (PArray 1%positive) mono rate_16k None
           None quiet None (store_of (Ndarray int16 [2] [1; 2]%Z)) 3%positive).
  vm_compute. reflexivity.
Defined.

(* ================================================================== *)
(** * The caller's objects are left alone *)
(* ================================================================== *)

Lemma audio_ffmpeg_leaves_objects_alone hst array nchannel sampling_rate
    before after out_type verbose timeout (h : heap) :
  leaves_objects_alone h
    (audio_ffmpeg hst array nchannel sampling_rate before after out_type
       verbose timeout h).
Proof.
  split.
  - intros l a Hl. eapply lookup_weaken; [exact Hl|].
    apply audio_ffmpeg_grows.
  - intros l' Hr. apply audio_ffmpeg_ok_inv in Hr.
    destruct Hr as (c & stdout_bytes & _ & _ & Hdec & ->).
    apply decode_result_ok in Hdec.
    destruct Hdec as (decoded & audio & _ & Hnew & Hl' & _).
    split; [exact Hnew | now exists audio].
Qed.

(** C10: the transform, the tempo change and the trim leave every array
    object of the caller as it was (element type, shape and items),
    whether the call returns, raises or blocks; and an array that is
    returned is a new object. *)
Theorem operations_leave_input_alone hst array nchannel sampling_rate
    before after out_type verbose timeout tempo time_offset duration
    (h : heap) :
  leaves_objects_alone h
    (audio_ffmpeg hst array nchannel sampling_rate before after out_type
       verbose timeout h) /\
  leaves_objects_alone h
    (audio_atempo hst array tempo nchannel sampling_rate out_type verbose
       timeout h) /\
  leaves_objects_alone h
    (audio_trim hst array time_offset duration nchannel sampling_rate out_type
       verbose timeout h).
Proof.
  split; [|split]; apply audio_ffmpeg_leaves_objects_alone.
Qed.

(* ================================================================== *)
(** * Calls that return *)
(* ================================================================== *)

Lemma supported_items (d : dtype) :
  supported d -> bool_decide (d = object_) || (itemsize d =? 0) = false.
Proof. intros [->|[->|[->|[->| ->]]]]; reflexivity. Qed.

Lemma fromstring_multiple (s : bytes) (d : dtype) :
  supported d ->
  length s mod itemsize d = 0 ->
  exists decoded, fromstring s d = Ok decoded /\ arr_dtype decoded = d.
Proof.
  intros Hd Hmod. unfold fromstring. rewrite (supported_items d Hd), Hmod.
  simpl. eexists. split; reflexivity.
Qed.

Lemma decode_result_single hst c stdout_bytes (h : heap) decoded :
  fromstring stdout_bytes (arr_dtype (c_array c)) = Ok decoded ->
  (int_value (c_nchannel c) <= 1)%Z ->
  kind (c_out_type c) <> "f"%char ->
  exists l,
    value (decode_result hst c stdout_bytes h) = Ok l /\
    store (decode_result hst c stdout_bytes h) !! l
    = Some (astype hst decoded (c_out_type c)).
Proof.
  intros Hd Hn Hk.
  rewrite decode_result_run, Hd. cbv zeta.
  replace (1 <? int_value (c_nchannel c))%Z with false
    by (symmetry; now apply Z.ltb_ge).
  rewrite (bool_decide_eq_false_2 _ Hk).
  destruct (size _ =? 0); cbn [value store]; eexists;
    (split; [reflexivity | apply lookup_insert_eq]).
Qed.

(** With arguments of the documented classes, a buffer of one of the
    three integer types of the table, at most one channel, the output type
    left out and a tool that exits with status 0 after writing whole
    items, the call returns an array of the input's element type. *)
Lemma audio_ffmpeg_returns hst l a nch rate (before after : option (list string))
    vb timeout (h : heap) fmt stdout stderr :
  which_ffmpeg hst = true ->
  h !! l = Some a ->
  get_format (arr_dtype a) = Ok fmt ->
  kind (arr_dtype a) <> "f"%char ->
  (int_value nch <= 1)%Z ->
  ffmpeg hst
    (build_command fmt rate nch (default [] before) (default [] after))
    (tobytes a) timeout = Exits 0 (Some stdout) stderr ->
  length stdout mod itemsize (arr_dtype a) = 0 ->
  let r := audio_ffmpeg hst (PArray l) (PInt nch) (PInt rate)
             (map PStr <$> before) (map PStr <$> after) PNone
             (PInt (IBool vb)) timeout h in
  exists l' audio,
    value r = Ok l' /\ store r !! l' = Some audio /\
    arr_dtype audio = arr_dtype a.
Proof.
  intros Hw Hl Hf Hk Hn Hrun Hmod r.
  set (c := Checked a nch rate (default [] before) (default [] after) vb
              (arr_dtype a) fmt).
  assert (Hc : value (check_args hst (PArray l) (PInt nch) (PInt rate)
                        (map PStr <$> before) (map PStr <$> after) PNone
                        (PInt (IBool vb)) h) = Ok c).
  { rewrite (check_args_typed hst l a nch rate before after PNone vb h fmt
               (arr_dtype a) Hw Hl Hf); [reflexivity | now left]. }
  assert (Hr : value (run_ffmpeg hst c timeout h) = Ok stdout)
    by exact (run_ffmpeg_success hst c timeout h stdout stderr Hrun).
  destruct (audio_ffmpeg_decodes _ _ _ _ _ _ _ _ timeout _ _ _ Hc Hr)
    as [Hv Hs].
  destruct (fromstring_multiple stdout (arr_dtype a)
              (get_format_supported _ _ Hf) Hmod) as (decoded & Hd & _).
  destruct (decode_result_single hst c stdout h decoded Hd Hn Hk)
    as (l' & Hl' & Hst).
  exists l', (astype hst decoded (arr_dtype a)).
  unfold r. rewrite Hv, Hs. repeat split; try assumption.
  apply astype_dtype. eapply get_format_supported, Hf.
Qed.

(* ================================================================== *)
(** * Items and bytes (lines 92 and 114) *)
(* ================================================================== *)

Lemma byte_value_of_Z (z : Z) : byte_value (byte_of_Z z) = (z mod 256)%Z.
Proof.
  unfold byte_value, byte_of_Z.
  assert (Hlt : (0 <= z mod 256 < 256)%Z) by (apply Z.mod_pos_bound; lia).
  destruct (Byte.of_N (Z.to_N (z mod 256))) as [b|] eqn:E; simpl.
  - apply Byte.to_of_N in E. rewrite E. lia.
  - apply Byte.of_N_None_iff in E. lia.
Qed.

Lemma le_bytes_S (k : nat) (z : Z) :
  le_bytes (S k) z = byte_of_Z z :: le_bytes k (Z.shiftr z 8).
Proof.
  unfold le_bytes. cbn [seq map]. f_equal.
  rewrite <- seq_shift, map_map. apply map_ext. intros i.
  rewrite Z.shiftr_shiftr by lia. do 2 f_equal. lia.
Qed.

Lemma length_le_bytes (k : nat) (z : Z) : length (le_bytes k z) = k.
Proof. unfold le_bytes. now rewrite length_map, length_seq. Qed.

(** Reading the bytes of an item back gives the item. *)
Lemma le_value_le_bytes (k : nat) (z : Z) :
  (0 <= z < 2 ^ (8 * Z.of_nat k))%Z -> le_value (le_bytes k z) = z.
Proof.
  revert z. induction k as [|k IH]; intros z Hz.
  - simpl in Hz. unfold le_bytes, le_value. simpl. lia.
  - rewrite le_bytes_S. unfold le_value. cbn [fold_right].
    fold (le_value (le_bytes k (Z.shiftr z 8))).
    rewrite byte_value_of_Z, IH.
    + rewrite Z.shiftr_div_pow2 by lia. change (2 ^ 8)%Z with 256%Z.
      symmetry. rewrite Z.add_comm. apply Z.div_mod. lia.
    + rewrite Z.shiftr_div_pow2 by lia. change (2 ^ 8)%Z with 256%Z.
      replace (8 * Z.of_nat (S k))%Z with (8 + 8 * Z.of_nat k)%Z in Hz by lia.
      rewrite Z.pow_add_r in Hz by lia. change (2 ^ 8)%Z with 256%Z in Hz.
      split; [apply Z.div_pos; lia | apply Z.div_lt_upper_bound; lia].
Qed.

Lemma length_flat_map_rows {A B} (f : A -> list B) (k : nat) (l : list A) :
  (forall x, length (f x) = k) -> length (flat_map f l) = length l * k.
Proof.
  intros Hlen. induction l as [|x l IH]; simpl; [reflexivity|].
  now rewrite length_app, Hlen, IH.
Qed.

Lemma chunk_flat_map {A B} (f : A -> list B) (k : nat) (l : list A) :
  (forall x, length (f x) = k) ->
  forall i x, nth_error l i = Some x ->
    firstn k (skipn (i * k) (flat_map f l)) = f x.
Proof.
  intros Hlen. induction l as [|y l IH]; intros [|i] x Hx; try discriminate.
  - injection Hx as ->. cbn [flat_map Nat.mul]. rewrite skipn_O.
    rewrite firstn_app, Hlen, Nat.sub_diag, firstn_O, app_nil_r.
    rewrite <- (Hlen x). apply firstn_all.
  - cbn [flat_map]. replace (S i * k) with (length (f y) + i * k)
      by (rewrite Hlen; lia).
    rewrite skipn_app, skipn_all2 by lia.
    replace (length (f y) + i * k - length (f y)) with (i * k) by lia.
    simpl. now apply IH.
Qed.

Lemma tobytes_length (a : ndarray) :
  length (tobytes a) = length (arr_data a) * itemsize (arr_dtype a).
Proof.
  unfold tobytes. apply length_flat_map_rows. intros z. apply length_le_bytes.
Qed.

(** The bytes of an array of a type of the table, read back with that
    type, give the same items as a one-dimensional array, whenever the
    items fit the item size. *)
Lemma fromstring_tobytes (a : ndarray) :
  supported (arr_dtype a) ->
  items_fit a ->
  fromstring (tobytes a) (arr_dtype a)
  = Ok (Ndarray (arr_dtype a) [length (arr_data a)] (arr_data a)).
Proof.
  intros Hsup Hfit.
  assert (Hk : 0 < itemsize (arr_dtype a))
    by (destruct Hsup as [->|[->|[->|[->| ->]]]]; simpl; lia).
  unfold fromstring. rewrite (supported_items _ Hsup), tobytes_length.
  rewrite Nat.Div0.mod_mul, Nat.div_mul by lia. simpl. do 2 f_equal.
  apply nth_error_ext. intros i. rewrite nth_error_map.
  destruct (nth_error (arr_data a) i) as [z|] eqn:Ez.
  - rewrite nth_error_seq_lt
      by (apply nth_error_Some; now rewrite Ez).
    simpl. f_equal. unfold tobytes.
    rewrite (chunk_flat_map _ (itemsize (arr_dtype a)) _
               (length_le_bytes _) i z Ez).
    apply le_value_le_bytes. unfold items_fit in Hfit.
    rewrite List.Forall_forall in Hfit. apply Hfit. eapply nth_error_In, Ez.
  - apply nth_error_None in Ez.
    replace (nth_error (seq 0 (length (arr_data a))) i) with (@None nat);
      [reflexivity|].
    symmetry. apply nth_error_None. now rewrite length_seq.
Qed.

(* ================================================================== *)
(** * More on [get_format] (lines 15-25) *)
(* ================================================================== *)

(** X2: the tag says how the bytes are laid out: a letter for the kind of
    element ([f] floating point, [s] signed, [u] unsigned), the width of an
    item in bits and [le]. Two element types with the same tag are the
    same type. *)
Theorem get_format_layout (d : dtype) (tag : string) :
  get_format d = Ok tag ->
  tag = tag_letter d +:+ nat_str (8 * itemsize d) +:+ "le" /\
  forall d', get_format d' = Ok tag -> d' = d.
Proof.
  intros Hd. pose proof (get_format_supported _ _ Hd) as Hs.
  destruct Hs as [->|[->|[->|[->| ->]]]]; injection Hd as <-;
    (split; [reflexivity|]);
    intros d' Hd'; pose proof (get_format_supported _ _ Hd') as Hs';
    destruct Hs' as [->|[->|[->|[->| ->]]]];
    first [reflexivity | discriminate Hd'].
Qed.

Lemma get_format_layout_witness :
  "s16le" = tag_letter int16 +:+ nat_str (8 * itemsize int16) +:+ "le" /\
  forall d', get_format d' = Ok "s16le" -> d' = int16.
Proof. exact (get_format_layout int16 "s16le" eq_refl). Defined.

(* ================================================================== *)
(** * More on the argument checks (lines 50-76) *)
(* ================================================================== *)

(** X3: without the tool on the search path the transform fails with
    the RuntimeError of line 51, whatever the array, the channel count, the
    rate, the output type and the verbose flag are (also ones that no later
    check would accept), for option arguments that are None or lists of any
    values and a timeout that is None or a number, before anything is
    started or created: the check of line 50 is the first thing the
    function does. *)
Theorem tool_not_found hst array nchannel sampling_rate before after out_type
    verbose timeout (h : heap) :
  which_ffmpeg hst = false ->
  audio_ffmpeg hst array nchannel sampling_rate before after out_type verbose
    timeout h
  = Run (Raise (RuntimeError "command not found: ffmpeg. Please install")) h [].
Proof.
  intros Hw. unfold audio_ffmpeg. apply bind_raise.
  unfold check_args. now rewrite Hw.
Qed.

Lemma tool_not_found_witness :
  audio_ffmpeg bare_host POther PNone (PStr "x") (Some [POther]) None POther
    PNone None ∅
  = Run (Raise (RuntimeError "command not found: ffmpeg. Please install")) ∅ [].
Proof.
  exact (tool_not_found bare_host POther PNone (PStr "x") (Some [POther]) None
           POther PNone None ∅ eq_refl).
Defined.

(** X4: with the tool on the search path, option arguments that are None
    or lists and a timeout that is None or a number, the classes of the
    arguments are checked in the order of lines 53-74, each failure raising
    its own TypeError before anything is started or created: an [array]
    that is not an ndarray, whatever the other arguments are; then an
    [nchannel] that is not an int; then a [sampling_rate] that is not an
    int; then, the option lists being lists of strings, a [verbose] that is
    not a bool; then an [out_type] that is neither None, nor a string, nor
    a dtype. *)
Theorem argument_classes_are_checked hst (l : loc) (a : ndarray)
    (nch rate : pyint) (before after : option (list string)) (vb : bool)
    array nchannel sampling_rate before' after' out_type verbose timeout
    (h : heap) :
  which_ffmpeg hst = true ->
  h !! l = Some a ->
  let failed := fun what must =>
    Run (Raise (TypeError ("Argument " +:+ quoted what +:+ must))) h [] in
  ((forall l', array = PArray l' -> h !! l' = None) ->
     audio_ffmpeg hst array nchannel sampling_rate before' after' out_type
       verbose timeout h = failed "array" " must be numpy.ndarray") /\
  ((forall i, nchannel <> PInt i) ->
     audio_ffmpeg hst (PArray l) nchannel sampling_rate before' after'
       out_type verbose timeout h = failed "nchannel" " must be int") /\
  ((forall i, sampling_rate <> PInt i) ->
     audio_ffmpeg hst (PArray l) (PInt nch) sampling_rate before' after'
       out_type verbose timeout h = failed "sampling_rate" " must be int") /\
  ((forall b, verbose <> PInt (IBool b)) ->
     audio_ffmpeg hst (PArray l) (PInt nch) (PInt rate)
       (map PStr <$> before) (map PStr <$> after) out_type verbose timeout h
     = failed "verbose" " must be bool") /\
  (out_type <> PNone -> (forall s, out_type <> PStr s) ->
   (forall d, out_type <> PDtype d) ->
     audio_ffmpeg hst (PArray l) (PInt nch) (PInt rate)
       (map PStr <$> before) (map PStr <$> after) out_type (PInt (IBool vb))
       timeout h
     = failed "out_type" " must be numpy.dtype or str").
Proof.
  intros Hw Hl failed.
  assert (Hstop : forall ar nc sr bf af ot vr e,
            check_args hst ar nc sr bf af ot vr h = Run (Raise e) h [] ->
            audio_ffmpeg hst ar nc sr bf af ot vr timeout h
            = Run (Raise e) h [])
    by (intros; unfold audio_ffmpeg; now apply bind_raise).
  repeat apply conj.
  - intros Harr. apply Hstop. unfold check_args. rewrite Hw. simpl.
    unfold bind at 1; simpl.
    destruct array as [| | | | |l'|]; try reflexivity.
    now rewrite (Harr l' eq_refl).
  - intros Hn. apply Hstop. unfold check_args. rewrite Hw. simpl.
    unfold bind at 1; simpl. rewrite Hl.
    destruct nchannel as [|i| | | | |]; try reflexivity.
    now destruct (Hn i).
  - intros Hr. apply Hstop. unfold check_args. rewrite Hw. simpl.
    unfold bind at 1; simpl. rewrite Hl.
    destruct sampling_rate as [|i| | | | |]; try reflexivity.
    now destruct (Hr i).
  - intros Hv. apply Hstop. unfold check_args. rewrite Hw. simpl.
    unfold bind at 1; simpl. rewrite Hl.
    rewrite (bind_ok _ _ _ _ _ _ (check_options_strs after h)).
    rewrite (bind_ok _ _ _ _ _ _ (check_options_strs before h)).
    destruct verbose as [|[z|b]| | | | |]; try reflexivity.
    now destruct (Hv b).
  - intros Hnone Hstr Hdt. apply Hstop. unfold check_args. rewrite Hw. simpl.
    unfold bind at 1; simpl. rewrite Hl.
    rewrite (bind_ok _ _ _ _ _ _ (check_options_strs after h)).
    rewrite (bind_ok _ _ _ _ _ _ (check_options_strs before h)).
    destruct out_type as [| | |s'|d| |]; try reflexivity.
    + now destruct Hnone.
    + now destruct (Hstr s').
    + now destruct (Hdt d).
Qed.

Lemma argument_classes_are_checked_witness :
  let h := store_of (zeros 4 int16) in
  let failed := fun what must =>
    Run (Raise (TypeError ("Argument " +:+ quoted what +:+ must))) h [] in
  audio_ffmpeg echo_host (PStr "samples") mono rate_16k None None PNone quiet
    None h = failed "array" " must be numpy.ndarray" /\
  audio_ffmpeg echo_host (PArray 1%positive) (PFloat 2%float) rate_16k None
    None PNone quiet None h = failed "nchannel" " must be int" /\
  audio_ffmpeg echo_host (PArray 1%positive) mono (PStr "16000") None None
    PNone quiet None h = failed "sampling_rate" " must be int" /\
  audio_ffmpeg echo_host (PArray 1%positive) mono rate_16k None
    (Some [PStr "-vn"]) PNone (PInt (IInt 1)) None h
  = failed "verbose" " must be bool" /\
  audio_ffmpeg echo_host (PArray 1%positive) mono rate_16k None
    (Some [PStr "-vn"]) POther quiet None h
  = failed "out_type" " must be numpy.dtype or str".
Proof.
  pose proof (argument_classes_are_checked echo_host 1%positive
                (zeros 4 int16) (IInt 1) (IInt 16000) None (Some ["-vn"])
                false (PStr "samples") (PFloat 2%float) (PStr "16000") None
                None POther (PInt (IInt 1)) None (store_of (zeros 4 int16))
                eq_refl eq_refl) as (H1 & H2 & H3 & H4 & H5).
  cbv zeta. repeat apply conj.
  - refine (eq_trans _ (H1 _)); [reflexivity | discriminate].
  - refine (eq_trans _ (H2 _)); [reflexivity | discriminate].
  - refine (eq_trans _ (H3 _)); [reflexivity | discriminate].
  - refine (eq_trans _ (H4 _)); [reflexivity | discriminate].
  - refine (eq_trans _ (H5 _ _ _)); [reflexivity | discriminate..].
Defined.

Lemma forallb_is_str_false (options : list pyval) :
  Exists (fun opt => as_str opt = None) options ->
  forallb (fun opt => bool_decide (is_Some (as_str opt))) options = false.
Proof.
  induction 1 as [opt options Hopt|opt options _ IH]; simpl.
  - rewrite Hopt. reflexivity.
  - rewrite IH. apply andb_false_r.
Qed.

(** X5: an option that is not a string, in either list, makes the call
    fail with the TypeError of the options, once the array and the two
    integers have passed; nothing is started. *)
Theorem options_must_be_strings hst l a nch rate before after out_type verbose
    timeout (h : heap) :
  which_ffmpeg hst = true ->
  h !! l = Some a ->
  Exists (fun opt => as_str opt = None) (default [] after ++ default [] before) ->
  audio_ffmpeg hst (PArray l) (PInt nch) (PInt rate) before after out_type
    verbose timeout h
  = Run (Raise (TypeError ("Argument " +:+ quoted "options" +:+
                           " must be a sequence of str"))) h [].
Proof.
  intros Hw Hl Hex. unfold audio_ffmpeg. apply bind_raise.
  unfold check_args. rewrite Hw. simpl. unfold bind at 1; simpl. rewrite Hl.
  assert (Hbad : forall options,
            forallb (fun opt => bool_decide (is_Some (as_str opt)))
              (default [] options) = false ->
            check_options options h
            = Run (Raise (TypeError ("Argument " +:+ quoted "options" +:+
                                     " must be a sequence of str"))) h [])
    by (intros options E; unfold check_options; now rewrite E).
  destruct (forallb (fun opt => bool_decide (is_Some (as_str opt)))
              (default [] after)) eqn:Ea.
  - assert (Hgood : check_options after h
                    = Run (Ok (omap as_str (default [] after))) h [])
      by (unfold check_options; now rewrite Ea).
    assert (Eb : forallb (fun opt => bool_decide (is_Some (as_str opt)))
                   (default [] before) = false).
    { apply forallb_is_str_false.
      apply Exists_app in Hex. destruct Hex as [Hex|Hex]; [|exact Hex].
      apply forallb_is_str_false in Hex. congruence. }
    rewrite (bind_ok _ _ _ _ _ _ Hgood).
    rewrite (bind_raise _ _ _ _ _ _ (Hbad before Eb)). reflexivity.
  - rewrite (bind_raise _ _ _ _ _ _ (Hbad after Ea)). reflexivity.
Qed.

Lemma options_must_be_strings_witness :
  audio_ffmpeg echo_host (PArray 1%positive) mono rate_16k
    (Some [PStr "-vn"; PInt (IInt 3)]) (Some [PStr "-ss"]) PNone quiet None
    (store_of (zeros 4 int16))
  = Run (Raise (TypeError ("Argument " +:+ quoted "options" +:+
                           " must be a sequence of str")))
        (store_of (zeros 4 int16)) [].
Proof.
  apply (options_must_be_strings echo_host 1%positive (zeros 4 int16)).
  - reflexivity.
  - reflexivity.
  - simpl. apply Exists_cons_tl, Exists_cons_tl, Exists_cons_hd. reflexivity.
Defined.

(** X6: an output type given as a string is not looked at: whatever the
    string, an array that the call returns has numpy's unicode string
    type, of the width numpy picks for the input's element type. *)
Theorem string_out_type hst array nchannel sampling_rate before after
    (name : string) verbose timeout (h : heap) (l' : loc) :
  let r := audio_ffmpeg hst array nchannel sampling_rate before after
             (PStr name) verbose timeout h in
  value r = Ok l' ->
  exists l a audio,
    array = PArray l /\ h !! l = Some a /\
    store r !! l' = Some audio /\
    arr_dtype audio = str_ (str_width hst (arr_dtype a)).
Proof.
  intros r Hr. unfold r in *.
  apply audio_ffmpeg_ok_inv in Hr.
  destruct Hr as (c & stdout_bytes & Hc & _ & Hdec & Hstore).
  apply check_args_inv in Hc.
  destruct Hc as (_ & (l & -> & Hl) & _ & _ & _ & _ & _ & Hout & _).
  destruct Hout as [[[=] _]|[[_ Hout]|[=]]].
  apply decode_result_ok in Hdec.
  destruct Hdec as (decoded & audio & Hd & _ & Hl' & Hlayout & _).
  apply fromstring_ok in Hd. destruct Hd as (Hdt & _).
  exists l, (c_array c), audio. rewrite Hstore.
  repeat split; auto.
  destruct Hlayout as [[_ ->]|[_ (rows & Hrows & ->)]].
  - rewrite Hout. simpl. now rewrite Hdt.
  - apply reshape_rows_dtype in Hrows. simpl. rewrite Hrows, Hout. simpl.
    now rewrite Hdt.
Qed.

Lemma string_out_type_witness :
  exists l a audio,
    PArray 1%positive = PArray l /\
    store_of (Ndarray int16 [2] [1; 2]%Z) !! l = Some a /\
    store (audio_ffmpeg echo_host (PArray 1%positive) mono rate_16k None None
             (PStr "float32") quiet None (store_of (Ndarray int16 [2] [1; 2]%Z)))
      !! 3%positive = Some audio /\
    arr_dtype audio = str_ (str_width echo_host (arr_dtype a)).
Proof.
  apply (string_out_type echo_host (PArray 1%positive) mono rate_16k None
           None "float32" quiet None (store_of (Ndarray int16 [2] [1; 2]%Z))
           3%positive).
  vm_compute. reflexivity.
Defined.

(* ================================================================== *)
(** * More on the subprocess (lines 81-112) *)
(* ================================================================== *)

Lemma run_ffmpeg_ok_inv hst c timeout (h : heap) stdout_bytes :
  value (run_ffmpeg hst c timeout h) = Ok stdout_bytes ->
  exists stderr,
    ffmpeg hst (command_of c) (tobytes (c_array c)) timeout
    = Exits 0 (Some stdout_bytes) stderr.
Proof.
  rewrite run_ffmpeg_run. cbn [value].
  destruct (ffmpeg hst _ _ timeout) as [rc [out|] err|out err];
    [destruct (rc =? 0)%Z eqn:Erc | destruct (rc =? 0)%Z | destruct timeout];
    try destruct (c_verbose c); try destruct (Utf8.decode err);
    try discriminate.
  all: apply Z.eqb_eq in Erc; subst rc; intros [= <-]; eauto.
Qed.

Lemma run_ffmpeg_blocks hst c (h : heap) stdout stderr :
  ffmpeg hst (command_of c) (tobytes (c_array c)) None
    = Overruns stdout stderr ->
  value (run_ffmpeg hst c None h) = Blocks.
Proof.
  intros E. rewrite run_ffmpeg_run. cbn [value]. rewrite E. reflexivity.
Qed.

Lemma reshape_rows_inv (a rows : ndarray) (n : nat) :
  reshape_rows a n = Ok rows ->
  n <> 0 /\ size a mod n = 0 /\
  rows = Ndarray (arr_dtype a) [size a / n; n] (arr_data a).
Proof.
  unfold reshape_rows.
  destruct (n =? 0) eqn:En; simpl; [discriminate|].
  destruct (size a mod n =? 0) eqn:Em; simpl; [|discriminate].
  apply Nat.eqb_neq in En. apply Nat.eqb_eq in Em. now intros [= <-].
Qed.

(** X7: an array is returned only after the tool has exited with status
    0 and handed back an output made of whole items of the input's element
    type; the array holds as many items as that output, whatever its
    layout. *)
Theorem returned_array_comes_from_clean_exit hst array nchannel sampling_rate
    before after out_type verbose timeout (h : heap) (l : loc) :
  let r := audio_ffmpeg hst array nchannel sampling_rate before after out_type
             verbose timeout h in
  value r = Ok l ->
  exists c stdout stderr audio,
    value (check_args hst array nchannel sampling_rate before after out_type
             verbose h) = Ok c /\
    ffmpeg hst (command_of c) (tobytes (c_array c)) timeout
      = Exits 0 (Some stdout) stderr /\
    length stdout mod itemsize (arr_dtype (c_array c)) = 0 /\
    store r !! l = Some audio /\
    size audio = length stdout / itemsize (arr_dtype (c_array c)).
Proof.
  intros r Hr. unfold r in *.
  apply audio_ffmpeg_ok_inv in Hr.
  destruct Hr as (c & stdout & Hc & Hrun & Hdec & Hstore).
  apply run_ffmpeg_ok_inv in Hrun. destruct Hrun as [stderr Hrun].
  apply decode_result_ok in Hdec.
  destruct Hdec as (decoded & audio & Hd & _ & Hl & Hlayout & _).
  apply fromstring_ok in Hd. destruct Hd as (_ & Hshape & _ & Hmod).
  exists c, stdout, stderr, audio. rewrite Hstore.
  repeat split; auto.
  assert (Hflat : size (astype hst decoded (c_out_type c))
                  = length stdout / itemsize (arr_dtype (c_array c)))
    by (apply size_flat; exact Hshape).
  destruct Hlayout as [[_ ->]|[_ (rows & Hrows & ->)]]; [exact Hflat|].
  apply reshape_rows_inv in Hrows. destruct Hrows as (Hn & Hdiv & ->).
  rewrite size_transpose_rows, <- Hflat.
  symmetry. apply Nat.Div0.div_exact. exact Hdiv.
Qed.

Lemma returned_array_comes_from_clean_exit_witness :
  let r := audio_ffmpeg echo_host (PArray 1%positive) (PInt (IInt 2))
             rate_16k None None PNone quiet None
             (store_of (Ndarray int16 [4] [1; 2; 3; 4]%Z)) in
  exists c stdout stderr audio,
    value (check_args echo_host (PArray 1%positive) (PInt (IInt 2)) rate_16k
             None None PNone quiet
             (store_of (Ndarray int16 [4] [1; 2; 3; 4]%Z))) = Ok c /\
    ffmpeg echo_host (command_of c) (tobytes (c_array c)) None
      = Exits 0 (Some stdout) stderr /\
    length stdout mod itemsize (arr_dtype (c_array c)) = 0 /\
    store r !! 5%positive = Some audio /\
    size audio = length stdout / itemsize (arr_dtype (c_array c)).
Proof.
  apply (returned_array_comes_from_clean_exit echo_host (PArray 1%positive)
           (PInt (IInt 2)) rate_16k None None PNone quiet None
           (store_of (Ndarray int16 [4] [1; 2; 3; 4]%Z)) 5%positive).
  vm_compute. reflexivity.
Defined.

(** X8: once the subprocess has been killed the call never returns a
    value, and a subprocess is only ever killed under a timeout. *)
Theorem kill_means_timeout_and_failure hst array nchannel sampling_rate
    before after out_type verbose timeout (h : heap) :
  let r := audio_ffmpeg hst array nchannel sampling_rate before after out_type
             verbose timeout h in
  In Kill (trace r) ->
  exists t e, timeout = Some t /\ value r = Raise e.
Proof.
  intros r Hin. unfold r in *.
  destruct (check_args_cases hst array nchannel sampling_rate before after
              out_type verbose h) as [[c E]|[e E]].
  - assert (Hc := f_equal value E). simpl in Hc.
    rewrite (audio_ffmpeg_trace _ _ _ _ _ _ _ _ timeout _ _ Hc) in Hin.
    destruct Hin as [Hin|Hin]; [discriminate Hin|].
    unfold after_spawn in Hin.
    destruct (ffmpeg hst (command_of c) (tobytes (c_array c)) timeout)
      as [rc out err|out err] eqn:Erun.
    + destruct (c_verbose c), timeout; simpl in Hin;
        repeat (destruct Hin as [Hin|Hin]; try discriminate Hin); destruct Hin.
    + destruct timeout as [t|].
      * pose proof (run_ffmpeg_timeout hst c t h out err Erun) as Hv.
        exists t.
        destruct (c_verbose c); [|destruct (Utf8.decode err)];
          eexists; (split; [reflexivity|]);
          exact (audio_ffmpeg_stops _ _ _ _ _ _ _ _ _ _ _ _ Hc Hv).
      * destruct (c_verbose c); simpl in Hin;
          repeat (destruct Hin as [Hin|Hin]; try discriminate Hin); destruct Hin.
  - unfold audio_ffmpeg in Hin. rewrite (bind_raise _ _ _ _ _ _ E) in Hin.
    destruct Hin.
Qed.

Lemma kill_means_timeout_and_failure_witness :
  exists t e,
    Some (NFloat 0.5%float) = Some t /\
    value (audio_ffmpeg (host_with (Overruns [] [])) (PArray 1%positive) mono
             rate_16k None None PNone quiet (Some (NFloat 0.5%float))
             (store_of (zeros 4 int16))) = Raise e.
Proof.
  apply (kill_means_timeout_and_failure (host_with (Overruns [] []))
           (PArray 1%positive) mono rate_16k None None PNone quiet
           (Some (NFloat 0.5%float)) (store_of (zeros 4 int16))).
  vm_compute. tauto.
Defined.

(** X9: without a timeout, a tool that does not end by itself is waited
    for without end: the call neither returns nor raises, the subprocess
    is not killed and no array is created. *)
Theorem no_timeout_waits hst array nchannel sampling_rate before after
    out_type verbose (h : heap) (c : checked) stdout stderr :
  value (check_args hst array nchannel sampling_rate before after out_type
           verbose h) = Ok c ->
  ffmpeg hst (command_of c) (tobytes (c_array c)) None
    = Overruns stdout stderr ->
  let r := audio_ffmpeg hst array nchannel sampling_rate before after out_type
             verbose None h in
  value r = Blocks /\ ~ In Kill (trace r) /\ store r = h.
Proof.
  intros Hc Hrun r. unfold r.
  pose proof (run_ffmpeg_blocks hst c h stdout stderr Hrun) as Hv.
  split; [|split].
  - rewrite (audio_ffmpeg_checked _ _ _ _ _ _ _ _ None _ c Hc).
    unfold bind. now rewrite Hv.
  - rewrite (audio_ffmpeg_trace _ _ _ _ _ _ _ _ None _ _ Hc).
    unfold after_spawn. rewrite Hrun.
    destruct (c_verbose c); simpl; intros Hin;
      repeat (destruct Hin as [Hin|Hin]; try discriminate Hin); destruct Hin.
  - rewrite (audio_ffmpeg_checked _ _ _ _ _ _ _ _ None _ c Hc).
    unfold bind. rewrite Hv. simpl. apply run_ffmpeg_effects.
Qed.

Lemma no_timeout_waits_witness :
  let r := audio_ffmpeg (host_with (Overruns [] [])) (PArray 1%positive) mono
             rate_16k None None PNone quiet None (store_of (zeros 4 int16)) in
  value r = Blocks /\ ~ In Kill (trace r) /\ store r = store_of (zeros 4 int16).
Proof.
  refine (no_timeout_waits (host_with (Overruns [] [])) (PArray 1%positive)
            mono rate_16k None None PNone quiet (store_of (zeros 4 int16))
            (Checked (zeros 4 int16) (IInt 1) (IInt 16000) [] [] false int16
               "s16le") [] [] _ _).
  - vm_compute. reflexivity.
  - reflexivity.
Defined.

(** X10: the order of what is done to a subprocess that has been
    started. The array argument is an ndarray and the verbose flag a bool;
    the subprocess is the first thing done, with its diagnostics captured
    exactly when the call is not verbose; a verbose call then prints the
    command line, joined by spaces; then the bytes of the array, as many as
    its items times their width, are sent with the timeout; and the only
    things that may follow are the kill and the final read of a timeout. *)
Theorem subprocess_protocol hst array nchannel sampling_rate before after
    out_type verbose timeout (h : heap) cmd cap :
  In (Spawn cmd cap)
     (trace (audio_ffmpeg hst array nchannel sampling_rate before after
               out_type verbose timeout h)) ->
  exists l a vb rest,
    array = PArray l /\ h !! l = Some a /\ verbose = PInt (IBool vb) /\
    cap = negb vb /\
    trace (audio_ffmpeg hst array nchannel sampling_rate before after
             out_type verbose timeout h)
    = Spawn cmd cap ::
      (if vb then [Print (join " " cmd)] else []) ++
      Communicate (tobytes a) timeout :: rest /\
    (rest = [] \/ rest = [Kill; Drain]) /\
    length (tobytes a) = length (arr_data a) * itemsize (arr_dtype a).
Proof.
  intros Hin. apply audio_ffmpeg_spawn_inv in Hin.
  destruct Hin as (c & Hc & -> & ->).
  rewrite (audio_ffmpeg_trace _ _ _ _ _ _ _ _ timeout _ _ Hc).
  apply check_args_inv in Hc.
  destruct Hc as (_ & (l & -> & Hl) & _ & _ & _ & _ & -> & _).
  unfold after_spawn.
  exists l, (c_array c), (c_verbose c). eexists.
  split; [reflexivity|]. split; [exact Hl|]. split; [reflexivity|].
  split; [reflexivity|]. split; [reflexivity|].
  split; [|apply tobytes_length].
  destruct (ffmpeg hst _ _ timeout), timeout; auto.
Qed.

Lemma subprocess_protocol_witness :
  exists l a vb rest,
    PArray 1%positive = PArray l /\
    store_of (zeros 4 int16) !! l = Some a /\
    PInt (IBool true) = PInt (IBool vb) /\
    false = negb vb /\
    trace (audio_ffmpeg echo_host (PArray 1%positive) mono rate_16k None
             (Some [PStr "-vn"]) PNone (PInt (IBool true))
             (Some (NFloat 0.5%float)) (store_of (zeros 4 int16)))
    = Spawn ["ffmpeg"; "-f"; "s16le"; "-ar"; "16000"; "-ac"; "1"; "-i";
             "pipe:0"; "-vn"; "-f"; "s16le"; "-ar"; "16000"; "-ac"; "1"; "-"]
        false ::
      (if vb
       then [Print (join " "
               ["ffmpeg"; "-f"; "s16le"; "-ar"; "16000"; "-ac"; "1"; "-i";
                "pipe:0"; "-vn"; "-f"; "s16le"; "-ar"; "16000"; "-ac"; "1";
                "-"])]
       else []) ++
      Communicate (tobytes a) (Some (NFloat 0.5%float)) :: rest /\
    (rest = [] \/ rest = [Kill; Drain]) /\
    length (tobytes a) = length (arr_data a) * itemsize (arr_dtype a).
Proof.
  apply (subprocess_protocol echo_host (PArray 1%positive) mono rate_16k None
           (Some [PStr "-vn"]) PNone (PInt (IBool true))
           (Some (NFloat 0.5%float)) (store_of (zeros 4 int16))).
  vm_compute. left. reflexivity.
Defined.

(* ================================================================== *)
(** * More on the decoder (lines 114-130) *)
(* ================================================================== *)

Lemma flat_map_empty {A B} (l : list A) :
  flat_map (fun _ : A => @nil B) l = [].
Proof. induction l; simpl; auto. Qed.

Lemma fromstring_empty (d : dtype) :
  supported d -> fromstring [] d = Ok (Ndarray d [0] []).
Proof.
  intros Hd. unfold fromstring. rewrite (supported_items d Hd). simpl length.
  rewrite Nat.Div0.mod_0_l, Nat.Div0.div_0_l. reflexivity.
Qed.

Lemma transpose_no_rows (d : dtype) (n : nat) :
  transpose (Ndarray d [0; n] []) = Ndarray d [n; 0] [].
Proof.
  unfold transpose. cbn [arr_dtype arr_shape arr_data].
  change (rev [0; n]) with [n; 0]. rewrite indices_rows.
  cbn [seq map]. now rewrite flat_map_empty.
Qed.

Lemma decode_result_single_empty hst c stdout_bytes (h : heap) decoded :
  fromstring stdout_bytes (arr_dtype (c_array c)) = Ok decoded ->
  (int_value (c_nchannel c) <= 1)%Z ->
  size decoded = 0 ->
  exists l,
    value (decode_result hst c stdout_bytes h) = Ok l /\
    store (decode_result hst c stdout_bytes h) !! l
    = Some (astype hst decoded (c_out_type c)).
Proof.
  intros Hd Hn Hs.
  rewrite decode_result_run, Hd. cbv zeta.
  replace (1 <? int_value (c_nchannel c))%Z with false
    by (symmetry; now apply Z.ltb_ge).
  change (size (astype hst decoded (c_out_type c))) with (size decoded).
  rewrite Hs. cbn [Nat.eqb value store].
  eexists. split; [reflexivity | apply lookup_insert_eq].
Qed.

Lemma decode_result_empty hst c (h : heap) :
  supported (arr_dtype (c_array c)) ->
  exists l audio,
    value (decode_result hst c [] h) = Ok l /\
    store (decode_result hst c [] h) !! l = Some audio /\
    arr_data audio = [] /\
    arr_shape audio =
      if (1 <? int_value (c_nchannel c))%Z
      then [Z.to_nat (int_value (c_nchannel c)); 0] else [0].
Proof.
  intros Hsup.
  pose proof (fromstring_empty (arr_dtype (c_array c)) Hsup) as Hd.
  destruct (Z.ltb_spec 1 (int_value (c_nchannel c))) as [Hn|Hn].
  - set (n := Z.to_nat (int_value (c_nchannel c))).
    assert (Hn0 : 0 < n) by (unfold n; lia).
    set (flat := astype hst (Ndarray (arr_dtype (c_array c)) [0] [])
                   (c_out_type c)).
    assert (Hrows : reshape_rows flat n = Ok (Ndarray (arr_dtype flat) [0; n] []))
      by (apply (reshape_rows_ok flat n 0); [exact Hn0 | unfold size; simpl; lia]).
    destruct (decode_result_rows hst c [] h _ _ Hd Hn Hrows) as (l & Hl & Hv).
    rewrite transpose_no_rows in Hl, Hv.
    exists l, (Ndarray (arr_dtype flat) [n; 0] []).
    split; [|split; [exact Hl | split; reflexivity]].
    rewrite Hv. unfold size. cbn [arr_shape fold_right].
    now rewrite Nat.mul_0_l, Nat.mul_0_r.
  - destruct (decode_result_single_empty hst c [] h _ Hd Hn)
      as (l & Hv & Hl); [reflexivity|].
    exists l, (astype hst (Ndarray (arr_dtype (c_array c)) [0] [])
                 (c_out_type c)).
    repeat split; assumption || reflexivity.
Qed.

(** X11: when the tool exits with status 0 and writes nothing (a trim
    window past the end, say), the call returns an empty array, whatever
    the requested type, floating-point types included: of shape [0] for
    one channel and [n; 0] for [n] channels. *)
Theorem empty_output_returns_empty hst array nchannel sampling_rate before
    after out_type verbose timeout (h : heap) (c : checked) stderr :
  value (check_args hst array nchannel sampling_rate before after out_type
           verbose h) = Ok c ->
  ffmpeg hst (command_of c) (tobytes (c_array c)) timeout
    = Exits 0 (Some []) stderr ->
  let r := audio_ffmpeg hst array nchannel sampling_rate before after out_type
             verbose timeout h in
  exists l audio,
    value r = Ok l /\ store r !! l = Some audio /\
    arr_data audio = [] /\
    arr_shape audio =
      if (1 <? int_value (c_nchannel c))%Z
      then [Z.to_nat (int_value (c_nchannel c)); 0] else [0].
Proof.
  intros Hc Hrun r. unfold r.
  pose proof (run_ffmpeg_success hst c timeout h [] stderr Hrun) as Hr.
  destruct (audio_ffmpeg_decodes _ _ _ _ _ _ _ _ timeout _ _ _ Hc Hr)
    as [Hv Hs].
  rewrite Hv, Hs. apply decode_result_empty.
  apply check_args_inv in Hc. eapply get_format_supported, Hc.
Qed.

Lemma empty_output_returns_empty_witness :
  let r := audio_ffmpeg (host_with (Exits 0 (Some []) [])) (PArray 1%positive)
             (PInt (IInt 2)) rate_16k None None (PDtype float64) quiet None
             (store_of (zeros 4 int16)) in
  exists l audio,
    value r = Ok l /\ store r !! l = Some audio /\
    arr_data audio = [] /\
    arr_shape audio = [2; 0].
Proof.
  refine (empty_output_returns_empty (host_with (Exits 0 (Some []) []))
            (PArray 1%positive) (PInt (IInt 2)) rate_16k None None
            (PDtype float64) quiet None (store_of (zeros 4 int16))
            (Checked (zeros 4 int16) (IInt 2) (IInt 16000) [] [] false float64
               "s16le") [] _ _).
  - vm_compute. reflexivity.
  - reflexivity.
Defined.

(** X12: with a floating-point output type, a tool that exits with status
    0 and writes at least one item (and a whole number of items per
    channel) makes the call stop with NameError on [normalize]: no
    non-empty floating-point array is ever returned. *)
Theorem float_output_stops_at_normalize hst array nchannel sampling_rate
    before after out_type verbose timeout (h : heap) (c : checked)
    stdout stderr :
  value (check_args hst array nchannel sampling_rate before after out_type
           verbose h) = Ok c ->
  ffmpeg hst (command_of c) (tobytes (c_array c)) timeout
    = Exits 0 (Some stdout) stderr ->
  kind (c_out_type c) = "f"%char ->
  let count := length stdout / itemsize (arr_dtype (c_array c)) in
  length stdout mod itemsize (arr_dtype (c_array c)) = 0 ->
  0 < count ->
  ((1 < int_value (c_nchannel c))%Z ->
     count mod Z.to_nat (int_value (c_nchannel c)) = 0) ->
  value (audio_ffmpeg hst array nchannel sampling_rate before after out_type
           verbose timeout h) = Raise (NameError "normalize").
Proof.
  intros Hc Hrun Hk count Hmod Hpos Hdiv.
  pose proof (run_ffmpeg_success hst c timeout h stdout stderr Hrun) as Hr.
  destruct (audio_ffmpeg_decodes _ _ _ _ _ _ _ _ timeout _ _ _ Hc Hr)
    as [Hv _].
  rewrite Hv.
  assert (Hsup : supported (arr_dtype (c_array c)))
    by (apply check_args_inv in Hc; eapply get_format_supported, Hc).
  destruct (fromstring_multiple stdout _ Hsup Hmod) as (decoded & Hd & _).
  destruct (fromstring_ok _ _ _ Hd) as (_ & Hshape & _ & _).
  assert (Hsize : size decoded = count) by (apply size_flat; exact Hshape).
  destruct (Z.ltb_spec 1 (int_value (c_nchannel c))) as [Hn|Hn].
  - set (n := Z.to_nat (int_value (c_nchannel c))).
    assert (Hn0 : 0 < n) by (unfold n; lia).
    specialize (Hdiv Hn). fold n in Hdiv.
    assert (Hcount : count = n * (count / n))
      by (apply Nat.Div0.div_exact; exact Hdiv).
    assert (Hrows : reshape_rows (astype hst decoded (c_out_type c)) n
                    = Ok (Ndarray (arr_dtype (astype hst decoded (c_out_type c)))
                            [count / n; n]
                            (arr_data (astype hst decoded (c_out_type c)))))
      by (apply reshape_rows_ok; [exact Hn0|];
          change (size (astype hst decoded (c_out_type c))) with (size decoded);
          now rewrite Hsize).
    destruct (decode_result_rows hst c stdout h decoded _ Hd Hn Hrows)
      as (l & _ & Hval).
    rewrite Hval, size_transpose_rows, <- Hcount.
    replace (count =? 0) with false by (symmetry; apply Nat.eqb_neq; lia).
    now rewrite bool_decide_eq_true_2.
  - apply (decode_result_float hst c stdout h decoded Hd Hn); [lia | exact Hk].
Qed.

Lemma float_output_stops_at_normalize_witness :
  value (audio_ffmpeg echo_host (PArray 1%positive) (PInt (IInt 2)) rate_16k
           None None (PDtype float32) quiet None
           (store_of (Ndarray int16 [4] [1; 2; 3; 4]%Z)))
  = Raise (NameError "normalize").
Proof.
  refine (float_output_stops_at_normalize echo_host (PArray 1%positive)
            (PInt (IInt 2)) rate_16k None None (PDtype float32) quiet None
            (store_of (Ndarray int16 [4] [1; 2; 3; 4]%Z))
            (Checked (Ndarray int16 [4] [1; 2; 3; 4]%Z) (IInt 2) (IInt 16000)
               [] [] false float32 "s16le")
            [x01; x00; x02; x00; x03; x00; x04; x00] [] _ _ _ _ _ _).
  - vm_compute. reflexivity.
  - reflexivity.
  - reflexivity.
  - reflexivity.
  - simpl. lia.
  - intros _. reflexivity.
Defined.

(** X13: an output that is not made of whole items (the tool wrote a
    number of bytes the item size does not divide) makes the call fail
    with the ValueError of [fromstring]; no array is created. *)
Theorem truncated_output_fails hst array nchannel sampling_rate before after
    out_type verbose timeout (h : heap) (c : checked) stdout stderr :
  value (check_args hst array nchannel sampling_rate before after out_type
           verbose h) = Ok c ->
  ffmpeg hst (command_of c) (tobytes (c_array c)) timeout
    = Exits 0 (Some stdout) stderr ->
  length stdout mod itemsize (arr_dtype (c_array c)) <> 0 ->
  let r := audio_ffmpeg hst array nchannel sampling_rate before after out_type
             verbose timeout h in
  value r = Raise (ValueError BufferSize) /\ store r = h.
Proof.
  intros Hc Hrun Hmod r. unfold r.
  pose proof (run_ffmpeg_success hst c timeout h stdout stderr Hrun) as Hr.
  destruct (audio_ffmpeg_decodes _ _ _ _ _ _ _ _ timeout _ _ _ Hc Hr)
    as [Hv Hs].
  rewrite Hv, Hs.
  assert (Hsup : supported (arr_dtype (c_array c)))
    by (apply check_args_inv in Hc; eapply get_format_supported, Hc).
  assert (Hd : fromstring stdout (arr_dtype (c_array c))
               = Raise (ValueError BufferSize)).
  { unfold fromstring. rewrite (supported_items _ Hsup).
    replace (length stdout mod itemsize (arr_dtype (c_array c)) =? 0)
      with false by (symmetry; now apply Nat.eqb_neq).
    reflexivity. }
  rewrite decode_result_run, Hd. now split.
Qed.

Lemma truncated_output_fails_witness :
  let r := audio_ffmpeg (host_with (Exits 0 (Some [x01; x00; x02]) []))
             (PArray 1%positive) mono rate_16k None None PNone quiet None
             (store_of (zeros 4 int16)) in
  value r = Raise (ValueError BufferSize) /\ store r = store_of (zeros 4 int16).
Proof.
  refine (truncated_output_fails
            (host_with (Exits 0 (Some [x01; x00; x02]) []))
            (PArray 1%positive) mono rate_16k None None PNone quiet None
            (store_of (zeros 4 int16))
            (Checked (zeros 4 int16) (IInt 1) (IInt 16000) [] [] false int16
               "s16le") [x01; x00; x02] [] _ _ _).
  - vm_compute. reflexivity.
  - reflexivity.
  - simpl. lia.
Defined.

(** X14: round trip. With arguments of the documented classes, an array
    of an integer type of the table whose items fit, at most one channel,
    the output type left out, a tool that hands its input back and exits
    with status 0, and numpy's cast to the same type leaving the items as
    they are, the call returns a new one-dimensional array with the items
    of the input. *)
Theorem identity_tool_round_trip hst l a nch rate
    (before after : option (list string)) vb timeout (h : heap) fmt stderr :
  which_ffmpeg hst = true ->
  h !! l = Some a ->
  get_format (arr_dtype a) = Ok fmt ->
  kind (arr_dtype a) <> "f"%char ->
  (int_value nch <= 1)%Z ->
  items_fit a ->
  (forall z, convert hst (arr_dtype a) (arr_dtype a) z = z) ->
  ffmpeg hst
    (build_command fmt rate nch (default [] before) (default [] after))
    (tobytes a) timeout = Exits 0 (Some (tobytes a)) stderr ->
  let r := audio_ffmpeg hst (PArray l) (PInt nch) (PInt rate)
             (map PStr <$> before) (map PStr <$> after) PNone
             (PInt (IBool vb)) timeout h in
  exists l',
    value r = Ok l' /\ h !! l' = None /\
    store r !! l'
    = Some (Ndarray (arr_dtype a) [length (arr_data a)] (arr_data a)).
Proof.
  intros Hw Hl Hf Hk Hn Hfit Hcast Hrun r.
  set (c := Checked a nch rate (default [] before) (default [] after) vb
              (arr_dtype a) fmt).
  assert (Hc : value (check_args hst (PArray l) (PInt nch) (PInt rate)
                        (map PStr <$> before) (map PStr <$> after) PNone
                        (PInt (IBool vb)) h) = Ok c).
  { rewrite (check_args_typed hst l a nch rate before after PNone vb h fmt
               (arr_dtype a) Hw Hl Hf); [reflexivity | now left]. }
  assert (Hr : value (run_ffmpeg hst c timeout h) = Ok (tobytes a))
    by exact (run_ffmpeg_success hst c timeout h (tobytes a) stderr Hrun).
  destruct (audio_ffmpeg_decodes _ _ _ _ _ _ _ _ timeout _ _ _ Hc Hr)
    as [Hv Hs].
  assert (Hsup : supported (arr_dtype a)) by (eapply get_format_supported, Hf).
  pose proof (fromstring_tobytes a Hsup Hfit) as Hd.
  destruct (decode_result_single hst c (tobytes a) h _ Hd Hn Hk)
    as (l' & Hl' & Hst).
  exists l'. unfold r. rewrite Hv, Hs. split; [exact Hl'|].
  split.
  - apply decode_result_ok in Hl'. destruct Hl' as (_ & _ & _ & Hnew & _).
    exact Hnew.
  - rewrite Hst. f_equal. unfold astype. simpl.
    replace (match arr_dtype a with str_ 0 => _ | _ => arr_dtype a end)
      with (arr_dtype a)
      by (destruct Hsup as [->|[->|[->|[->| ->]]]]; reflexivity).
    f_equal. rewrite <- (map_id (arr_data a)) at 2.
    apply map_ext. exact Hcast.
Qed.

Lemma identity_tool_round_trip_witness :
  let r := audio_ffmpeg echo_host (PArray 1%positive) mono rate_16k None None
             PNone quiet None (store_of (Ndarray int16 [3] [1; 65535; 258]%Z)) in
  exists l',
    value r = Ok l' /\
    store_of (Ndarray int16 [3] [1; 65535; 258]%Z) !! l' = None /\
    store r !! l' = Some (Ndarray int16 [3] [1; 65535; 258]%Z).
Proof.
  refine (identity_tool_round_trip echo_host 1%positive
            (Ndarray int16 [3] [1; 65535; 258]%Z) (IInt 1) (IInt 16000)
            None None false None
            (store_of (Ndarray int16 [3] [1; 65535; 258]%Z)) "s16le" []
            _ _ _ _ _ _ _ _).
  - reflexivity.
  - reflexivity.
  - reflexivity.
  - discriminate.
  - simpl. lia.
  - unfold items_fit, fits. simpl. repeat constructor; lia.
  - reflexivity.
  - reflexivity.
Defined.

(* ================================================================== *)
(** * More on audio_atempo and audio_trim (lines 153-164, 189-196) *)
(* ================================================================== *)

(** X15: a tempo change by a tempo that is 1.0 (the float, the integer 1
    or True) behaves in every respect as the plain transform called with
    neither option list: same result or exception, same arrays created,
    same things done to the subprocess. *)
Theorem unit_tempo_is_plain_transform hst array tempo nchannel sampling_rate
    out_type verbose timeout (h : heap) :
  unit_tempo tempo ->
  audio_atempo hst array tempo nchannel sampling_rate out_type verbose
    timeout h
  = audio_ffmpeg hst array nchannel sampling_rate None None out_type verbose
      timeout h.
Proof.
  intros Hone. apply is_one_unit_tempo in Hone.
  unfold audio_atempo, atempo_options. rewrite Hone. reflexivity.
Qed.

Lemma unit_tempo_is_plain_transform_witness :
  audio_atempo echo_host (PArray 1%positive) (NFloat 1%float) mono rate_16k
    PNone quiet None (store_of (zeros 4 int16))
  = audio_ffmpeg echo_host (PArray 1%positive) mono rate_16k None None PNone
      quiet None (store_of (zeros 4 int16)).
Proof.
  exact (unit_tempo_is_plain_transform echo_host (PArray 1%positive)
           (NFloat 1%float) mono rate_16k PNone quiet None
           (store_of (zeros 4 int16)) (or_introl eq_refl)).
Defined.

(** X16: the command a trim runs has no before-input option and, after
    the input, exactly [-ss], the printed offset, [-t] and the printed
    duration, whatever these two numbers are (nothing is checked against
    the length of the buffer). *)
Theorem trim_command hst array time_offset duration nchannel sampling_rate
    out_type verbose timeout (h : heap) cmd cap :
  In (Spawn cmd cap)
     (trace (audio_trim hst array time_offset duration nchannel sampling_rate
               out_type verbose timeout h)) ->
  exists fmt rate nch,
    nchannel = PInt nch /\ sampling_rate = PInt rate /\
    cmd = ["ffmpeg"; "-f"; fmt; "-ar"; int_str rate; "-ac"; int_str nch;
           "-i"; "pipe:0";
           "-ss"; num_str hst time_offset; "-t"; num_str hst duration;
           "-f"; fmt; "-ar"; int_str rate; "-ac"; int_str nch; "-"].
Proof.
  intros Hin. unfold audio_trim in Hin. apply audio_ffmpeg_spawn_inv in Hin.
  destruct Hin as (c & Hc & -> & _).
  apply check_args_inv in Hc.
  destruct Hc as (_ & _ & -> & -> & Hb & Ha & _ & _ & _).
  simpl in Hb.
  change (map PStr (trim_options hst time_offset duration)
          = map PStr (c_after c)) in Ha.
  apply map_PStr_inj in Ha.
  assert (Eb : c_before c = [])
    by (destruct (c_before c); [reflexivity | discriminate Hb]).
  exists (c_format c), (c_sampling_rate c), (c_nchannel c).
  repeat split. unfold command_of, build_command. rewrite Eb, <- Ha.
  reflexivity.
Qed.

Lemma trim_command_witness :
  exists fmt rate nch,
    mono = PInt nch /\ rate_16k = PInt rate /\
    ["ffmpeg"; "-f"; "s16le"; "-ar"; "16000"; "-ac"; "1"; "-i"; "pipe:0";
     "-ss"; "0"; "-t"; "0.5"; "-f"; "s16le"; "-ar"; "16000"; "-ac"; "1"; "-"]
    = ["ffmpeg"; "-f"; fmt; "-ar"; int_str rate; "-ac"; int_str nch;
       "-i"; "pipe:0";
       "-ss"; num_str echo_host (NInt (IInt 0)); "-t";
       num_str echo_host (NFloat 0.5%float);
       "-f"; fmt; "-ar"; int_str rate; "-ac"; int_str nch; "-"].
Proof.
  apply (trim_command echo_host (PArray 1%positive) (NInt (IInt 0))
           (NFloat 0.5%float) mono rate_16k PNone quiet None
           (store_of (zeros 4 int16)) _ true).
  vm_compute. left. reflexivity.
Defined.
